(** * Thompson-sampling experiment: [MultiArmedBanditExperiment]

    Shallow embedding of
    [src/recommendations/src/recommendations-service/experimentation/experiment_mab.py].

    The Python methods are written in a state-and-exception monad over a
    [World] that holds everything the methods read or mutate: the
    experiment's variations, numpy's global generator, the clock, the heap
    of item dictionaries handed out by the resolvers, the [experiment_logs]
    table, the tracker and the application log.  The behaviour of the
    collaborators that live outside the file (numpy, DynamoDB, the clock, the
    base class helpers) is collected in [Env]. *)

From Stdlib Require Import ZArith QArith Qround String List Lia.
From Stdlib Require Import DecimalString DecimalNat DecimalZ Lqa.
From stdpp Require Import base option list gmap strings fin_maps.

Local Open Scope string_scope.
Local Open Scope list_scope.
Local Open Scope Z_scope.

(** ** Python values and exceptions *)

(** An exception object: its class (a subclass of [Exception]) and message. *)
Inductive exn := PyExn (cls : string) (msg : string).

Inductive result (A : Type) :=
| Ok (a : A)
| Raise (e : exn).
Arguments Ok {A} a.
Arguments Raise {A} e.

(** The dictionary [item_experiment] of [get_items] (lines 60-68). *)
Record ItemExperimentStamp := {
  stamp_id : string;
  stamp_feature : string;
  stamp_name : string;
  stamp_type : string;
  variationIndex : Z;
  resultRank : Z;
  correlationId : string
}.

(** Values stored under the keys of an item or of a variation's config.
    [VDec] stands for the finite values of [Decimal] and [float]. *)
Inductive value :=
| VNone
| VInt (z : Z)
| VDec (q : Q)          (* Decimal or float *)
| VStr (s : string)
| VExperiment (st : ItemExperimentStamp).

(** [self.id], [self.feature], [self.name], [self.type]. *)
Record Identity := {
  self_id : string;
  self_feature : string;
  self_name : string;
  self_type : string
}.

(** A [datetime]; [posix_timestamp] is what [.timestamp()] returns. *)
Record datetime := { posix_timestamp : Q }.

(** The keyword arguments of [variation.resolver.get_items] (lines 44-52). *)
Record ResolveParams := {
  rp_user_id : string;
  rp_product_id : option string;
  rp_product_list : option (list string);
  rp_num_results : Z;
  rp_filter_values : option value;
  rp_context : option value;
  rp_promotion : option value
}.

(** A resolver returns a list of references to item dictionaries living in
    the heap (it may allocate or change items), or raises. *)
Definition Resolver : Type :=
  ResolveParams -> gmap nat (gmap string value) ->
  result (list nat) * gmap nat (gmap string value).

Record Variation := {
  config : gmap string value;
  resolver : Resolver
}.

(** The [event] dictionary of lines 77-91. *)
Record ExposureAttributes := {
  attr_user_id : string;
  attr_experiment : Identity;
  attr_variation_index : Z;
  attr_variation : gmap string value
}.

Record ExposureEvent := {
  event_type : string;
  event_timestamp : Z;
  attributes : ExposureAttributes
}.

(** [tracker.log_exposure(event)]: returns, or raises the given exception. *)
Definition Tracker : Type := ExposureEvent -> option exn.

(** The [item] dictionary of [_log_experiment_data] (lines 121-127). *)
Record TelemetrySnapshot := {
  snap_experiment_id : string;
  snap_timestamp : string;
  snap_exposures : list Z;       (* floats, each written as the integer it holds *)
  snap_conversions : list Z;
  snap_theta : list Q
}.

(** Records written through [log.debug] and [log.error]. *)
Inductive LogRecord :=
| DebugAssigned (user_id : string) (variation_idx : Z)      (* line 36 *)
| DebugLogged (timestamp : string)                          (* line 130 *)
| ErrorFailedToLog (e : exn)                                (* line 132 *)
| ErrorUnexpected (e : exn)                                 (* line 134 *)
| ErrorLogging (e : exn).                                   (* line 114 *)

(** ** The world *)

Record World := {
  variations : list Variation;            (* self.variations *)
  rng : nat;                              (* state of np.random *)
  ticks : nat;                            (* number of clock reads so far *)
  heap : gmap nat (gmap string value);    (* item dictionaries by reference *)
  log_table : list TelemetrySnapshot;     (* rows stored in experiment_logs *)
  put_attempts : list TelemetrySnapshot;  (* every put_item call made *)
  tracker_calls : list ExposureEvent;     (* every log_exposure call made *)
  resolver_calls : list (Z * ResolveParams);
  app_log : list LogRecord
}.

Definition set_variations (vs : list Variation) (w : World) : World :=
  {| variations := vs; rng := rng w; ticks := ticks w; heap := heap w;
     log_table := log_table w; put_attempts := put_attempts w;
     tracker_calls := tracker_calls w; resolver_calls := resolver_calls w;
     app_log := app_log w |}.

Definition set_rng (r : nat) (w : World) : World :=
  {| variations := variations w; rng := r; ticks := ticks w; heap := heap w;
     log_table := log_table w; put_attempts := put_attempts w;
     tracker_calls := tracker_calls w; resolver_calls := resolver_calls w;
     app_log := app_log w |}.

Definition set_ticks (t : nat) (w : World) : World :=
  {| variations := variations w; rng := rng w; ticks := t; heap := heap w;
     log_table := log_table w; put_attempts := put_attempts w;
     tracker_calls := tracker_calls w; resolver_calls := resolver_calls w;
     app_log := app_log w |}.

Definition set_heap (h : gmap nat (gmap string value)) (w : World) : World :=
  {| variations := variations w; rng := rng w; ticks := ticks w; heap := h;
     log_table := log_table w; put_attempts := put_attempts w;
     tracker_calls := tracker_calls w; resolver_calls := resolver_calls w;
     app_log := app_log w |}.

Definition set_log_table (t : list TelemetrySnapshot) (w : World) : World :=
  {| variations := variations w; rng := rng w; ticks := ticks w; heap := heap w;
     log_table := t; put_attempts := put_attempts w;
     tracker_calls := tracker_calls w; resolver_calls := resolver_calls w;
     app_log := app_log w |}.

Definition set_put_attempts (t : list TelemetrySnapshot) (w : World) : World :=
  {| variations := variations w; rng := rng w; ticks := ticks w; heap := heap w;
     log_table := log_table w; put_attempts := t;
     tracker_calls := tracker_calls w; resolver_calls := resolver_calls w;
     app_log := app_log w |}.

Definition set_tracker_calls (t : list ExposureEvent) (w : World) : World :=
  {| variations := variations w; rng := rng w; ticks := ticks w; heap := heap w;
     log_table := log_table w; put_attempts := put_attempts w;
     tracker_calls := t; resolver_calls := resolver_calls w;
     app_log := app_log w |}.

Definition set_resolver_calls (t : list (Z * ResolveParams)) (w : World) : World :=
  {| variations := variations w; rng := rng w; ticks := ticks w; heap := heap w;
     log_table := log_table w; put_attempts := put_attempts w;
     tracker_calls := tracker_calls w; resolver_calls := t;
     app_log := app_log w |}.

Definition set_app_log (t : list LogRecord) (w : World) : World :=
  {| variations := variations w; rng := rng w; ticks := ticks w; heap := heap w;
     log_table := log_table w; put_attempts := put_attempts w;
     tracker_calls := tracker_calls w; resolver_calls := resolver_calls w;
     app_log := t |}.

(** ** The state-and-exception monad *)

Definition M (A : Type) : Type := World -> result A * World.

Definition ret {A} (a : A) : M A := fun w => (Ok a, w).

Definition raise {A} (e : exn) : M A := fun w => (Raise e, w).

Definition bind {A B} (m : M A) (k : A -> M B) : M B :=
  fun w =>
    match m w with
    | (Ok a, w') => k a w'
    | (Raise e, w') => (Raise e, w')
    end.

(** [try: m except Exception as e: h e]. *)
Definition try_except {A} (m : M A) (h : exn -> M A) : M A :=
  fun w =>
    match m w with
    | (Ok a, w') => (Ok a, w')
    | (Raise e, w') => h e w'
    end.

Definition lift_result {A} (r : result A) : M A := fun w => (r, w).

Definition gets {A} (f : World -> A) : M A := fun w => (Ok (f w), w).

Definition modify (f : World -> World) : M unit := fun w => (Ok tt, f w).

Declare Scope py_scope.
Delimit Scope py_scope with py.
Notation "x <- m ;; k" := (bind m (fun x => k))
  (at level 100, m at next level, right associativity) : py_scope.
Notation "m ;;; k" := (bind m (fun _ => k))
  (at level 100, right associativity) : py_scope.

(** ** Collaborators outside the file *)

(** Modelled from the spec: [_create_correlation_id] is a method of the base
    class [BuiltInExperiment], whose file is not part of the sources.  The
    design (4.3) asks for an opaque string derived from
    (user_id, variation_index, rank) such that the identifier of one item is
    distinguishable from that of any other item of the same response, that
    is, from the one computed for any other rank. *)
Record CorrelationIdGenerator := {
  create_id : Identity -> string -> Z -> Z -> string;
  create_id_distinct :
    forall self user_id variation_idx r1 r2,
      r1 <> r2 ->
      create_id self user_id variation_idx r1 <>
      create_id self user_id variation_idx r2
}.

Record Env := {
  (* one draw of np.random.beta(a, b) from the given generator state, for
     float shapes a and b that hold integers *)
  beta_sample : nat -> Z -> Z -> Q * nat;
  (* binary64 multiplication *)
  float_mul : Q -> Q -> Q;
  (* int(s) for a str s: the integer, or the ValueError it raises *)
  py_int_of_str : string -> result Z;
  (* whether the class of that name derives from botocore's ClientError *)
  client_error_subclass : string -> bool;
  (* datetime.now() and datetime.utcnow() at the k-th read of the clock *)
  now : nat -> datetime;
  utcnow : nat -> datetime;
  isoformat : datetime -> string;
  (* self.log_table.put_item(Item=item), given the rows already stored:
     None when the write succeeds, Some e when it raises e *)
  put_item : TelemetrySnapshot -> list TelemetrySnapshot -> option exn;
  correlation : CorrelationIdGenerator
}.

Definition with_put_item
    (p : TelemetrySnapshot -> list TelemetrySnapshot -> option exn)
    (E : Env) : Env :=
  {| beta_sample := beta_sample E; float_mul := float_mul E;
     py_int_of_str := py_int_of_str E;
     client_error_subclass := client_error_subclass E;
     now := now E; utcnow := utcnow E;
     isoformat := isoformat E; put_item := p; correlation := correlation E |}.

(** ** Python primitives *)

Definition ValueError (msg : string) : exn := PyExn "ValueError" msg.
Definition TypeError (msg : string) : exn := PyExn "TypeError" msg.
Definition IndexError (msg : string) : exn := PyExn "IndexError" msg.
Definition Exception (msg : string) : exn := PyExn "Exception" msg.
Definition OverflowError (msg : string) : exn := PyExn "OverflowError" msg.

(** Truncation toward zero, as [int()] does on a [Decimal] or a [float]. *)
Definition Qtruncate (q : Q) : Z := Z.quot (Qnum q) (Zpos (Qden q)).

(** [round(x)] on a float: to the nearest integer, halves to even. *)
Definition py_round (q : Q) : Z :=
  let f := Qfloor q in
  match Qcompare (q - inject_Z f) (1 # 2) with
  | Lt => f
  | Gt => f + 1
  | Eq => if Z.even f then f else f + 1
  end.

Definition Qlt_bool (x y : Q) : bool := negb (Qle_bool y x).

(** The elements of the two numpy arrays of [_select_variation_index] are
    binary64 floats that hold integers; such a float is written as the
    integer it holds.  [round_binary64 z] is the float nearest to the
    integer [z]: [z] kept to 53 significant bits, halves to even. *)
Definition round_binary64 (z : Z) : Z :=
  let a := Z.abs z in
  let e := Z.log2 a - 52 in
  if e <=? 0 then z
  else
    let q := Z.shiftr a e in
    let r := a - Z.shiftl q e in
    let half := Z.shiftl 1 (e - 1) in
    let q' := if r <? half then q
              else if half <? r then q + 1
              else if Z.even q then q else q + 1 in
    Z.sgn z * Z.shiftl q' e.

(** Storing a Python [int] into a float64 array element (lines 105-106):
    the nearest float, or [OverflowError] when that is beyond the range of
    binary64. *)
Definition float_of_int (z : Z) : result Z :=
  let f := round_binary64 z in
  if 2 ^ 1024 <=? Z.abs f
  then Raise (OverflowError "int too large to convert to float")
  else Ok f.

(** [x + 1] on a float64 [x] that holds an integer (line 109). *)
Definition float_add_1 (x : Z) : Z := round_binary64 (x + 1).

(** [d.get(k, default)]. *)
Definition dict_get (d : gmap string value) (k : string) (dflt : value) : value :=
  default dflt (d !! k).

(** [l[i]] with Python's negative indices. *)
Definition py_norm_index {A} (l : list A) (i : Z) : Z :=
  if i <? 0 then i + Z.of_nat (length l) else i.

Definition py_getitem {A} (l : list A) (i : Z) : result A :=
  let j := py_norm_index l i in
  if j <? 0 then Raise (IndexError "list index out of range")
  else match l !! Z.to_nat j with
       | Some a => Ok a
       | None => Raise (IndexError "list index out of range")
       end.

(** [np.argmax]: the first index holding the maximum. *)
Fixpoint argmax_from (best_i : nat) (best : Q) (i : nat) (l : list Q) : nat :=
  match l with
  | [] => best_i
  | x :: l' =>
      if Qlt_bool best x then argmax_from i x (S i) l'
      else argmax_from best_i best (S i) l'
  end.

Definition np_argmax (theta : list Q) : result Z :=
  match theta with
  | [] => Raise (ValueError "attempt to get argmax of an empty sequence")
  | x :: l => Ok (Z.of_nat (argmax_from 0 x 1 l))
  end.

(** The object an item reference denotes. *)
Definition heap_get (h : gmap nat (gmap string value)) (l : nat)
    : gmap string value :=
  default ∅ (h !! l).

(** [item.update({'experiment': v})] on the object behind [l]. *)
Definition item_update (l : nat) (v : value) (h : gmap nat (gmap string value))
    : gmap nat (gmap string value) :=
  <[l := <["experiment" := v]> (heap_get h l)]> h.

Section Experiment.

Context (E : Env) (self : Identity).

Local Open Scope py_scope.

Definition py_int (v : value) : result Z :=
  match v with
  | VInt z => Ok z
  | VDec q => Ok (Qtruncate q)
  | VStr s => py_int_of_str E s
  | VNone =>
      Raise (TypeError "int() argument must be a string, a bytes-like object or a real number, not 'NoneType'")
  | VExperiment _ =>
      Raise (TypeError "int() argument must be a string, a bytes-like object or a real number, not 'dict'")
  end.

Definition log_record (r : LogRecord) : M unit :=
  modify (fun w => set_app_log (app_log w ++ [r]) w).

Definition read_clock (clock : nat -> datetime) : M datetime :=
  fun w => (Ok (clock (ticks w)), set_ticks (S (ticks w)) w).

(** [self.log_table.put_item(Item=item)]. *)
Definition log_table_put_item (item : TelemetrySnapshot) : M unit :=
  fun w =>
    let w1 := set_put_attempts (put_attempts w ++ [item]) w in
    match put_item E item (log_table w) with
    | None => (Ok tt, set_log_table (log_table w ++ [item]) w1)
    | Some e => (Raise e, w1)
    end.

(** [isinstance(e, ClientError)], as [except ClientError] tests it: the
    class itself or one that derives from it. *)
Definition is_ClientError (e : exn) : bool :=
  match e with
  | PyExn cls _ => String.eqb cls "ClientError" || client_error_subclass E cls
  end.

(** Lines 119-134. *)
Definition _log_experiment_data (exposures conversions : list Z) (theta : list Q)
    : M unit :=
  t <- read_clock (utcnow E) ;;
  let timestamp := isoformat E t in
  let item := {| snap_experiment_id := self_id self;
                 snap_timestamp := timestamp;
                 snap_exposures := exposures;
                 snap_conversions := conversions;
                 snap_theta := theta |} in
  try_except
    (log_table_put_item item ;;; log_record (DebugLogged timestamp))
    (fun e => if is_ClientError e then log_record (ErrorFailedToLog e)
              else log_record (ErrorUnexpected e)).

(** One assignment of lines 105-106, [counts[i] = int(config.get(k, 0))]:
    the float stored, or the exception of [int] or of the store. *)
Definition read_count (c : gmap string value) (k : string) : result Z :=
  match py_int (dict_get c k (VInt 0)) with
  | Raise e => Raise e
  | Ok z => float_of_int z
  end.

(** The loop of lines 103-106: the two float arrays, or the first
    exception raised. *)
Fixpoint read_counts (vs : list Variation) : result (list Z * list Z) :=
  match vs with
  | [] => Ok ([], [])
  | variation :: vs' =>
      match read_count (config variation) "exposures" with
      | Raise e => Raise e
      | Ok ex =>
          match read_count (config variation) "conversions" with
          | Raise e => Raise e
          | Ok cv =>
              match read_counts vs' with
              | Raise e => Raise e
              | Ok (exposures, conversions) =>
                  Ok (ex :: exposures, cv :: conversions)
              end
          end
      end
  end.

(** Element-wise draws, in index order, threading the generator state. *)
Fixpoint beta_draws (ab : list (Z * Z)) (r : nat) : list Q * nat :=
  match ab with
  | [] => ([], r)
  | (a, b) :: rest =>
      let (x, r1) := beta_sample E r a b in
      let (xs, r2) := beta_draws rest r1 in
      (x :: xs, r2)
  end.

(** [np.random.beta(a, b)] on two vectors of the same length: a
    [ValueError] unless every shape parameter is positive. *)
Definition np_random_beta (a b : list Z) : M (list Q) :=
  fun w =>
    if forallb (fun x => 0 <? x) a then
      if forallb (fun x => 0 <? x) b then
        let (theta, r) := beta_draws (zip a b) (rng w) in
        (Ok theta, set_rng r w)
      else (Raise (ValueError "b <= 0"), w)
    else (Raise (ValueError "a <= 0"), w).

(** Lines 97-117. *)
Definition _select_variation_index : M Z :=
  vs <- gets variations ;;
  counts <- lift_result (read_counts vs) ;;
  let exposures := fst counts in
  let conversions := snd counts in
  theta <- np_random_beta (map float_add_1 conversions)
                          (map float_add_1 exposures) ;;
  try_except
    (_log_experiment_data exposures conversions theta)
    (fun e => log_record (ErrorLogging e)) ;;;
  lift_result (np_argmax theta).

(** Modelled from the spec: [_increment_exposure_count] is a method of the
    base class [BuiltInExperiment], whose file is not part of the sources.
    The data model (3) says that the variation's config is the single source
    of truth for the counts and that incrementing exposures means writing
    back into this shared config structure: the count read as the selection
    reads it, plus one, is stored under ['exposures']. *)
Definition _increment_exposure_count (variation_idx : Z) : M unit :=
  vs <- gets variations ;;
  variation <- lift_result (py_getitem vs variation_idx) ;;
  count <- lift_result
             (py_int (dict_get (config variation) "exposures" (VInt 0))) ;;
  modify (set_variations
            (<[Z.to_nat (py_norm_index vs variation_idx) :=
                 {| config := <["exposures" := VInt (count + 1)]> (config variation);
                    resolver := resolver variation |}]> vs)).

Definition _create_correlation_id (user_id : string) (variation_idx rank : Z)
    : string :=
  create_id (correlation E) self user_id variation_idx rank.

(** The call [variation.resolver.get_items] of line 53. *)
Definition resolver_get_items (variation_idx : Z) (variation : Variation)
    (resolve_params : ResolveParams) : M (list nat) :=
  fun w =>
    let (r, h) := resolver variation resolve_params (heap w) in
    (r, set_heap h
          (set_resolver_calls
             (resolver_calls w ++ [(variation_idx, resolve_params)]) w)).

(** The loop of lines 56-72, on the heap. *)
Fixpoint annotate (user_id : string) (variation_idx : Z) (rank : Z)
    (items : list nat) (h : gmap nat (gmap string value))
    : gmap nat (gmap string value) :=
  match items with
  | [] => h
  | item :: rest =>
      let correlation_id := _create_correlation_id user_id variation_idx rank in
      let item_experiment :=
        {| stamp_id := self_id self;
           stamp_feature := self_feature self;
           stamp_name := self_name self;
           stamp_type := self_type self;
           variationIndex := variation_idx;
           resultRank := rank;
           correlationId := correlation_id |} in
      annotate user_id variation_idx (rank + 1) rest
        (item_update item (VExperiment item_experiment) h)
  end.

(** [tracker.log_exposure(event)]. *)
Definition log_exposure (tracker : Tracker) (event : ExposureEvent) : M unit :=
  fun w =>
    let w1 := set_tracker_calls (tracker_calls w ++ [event]) w in
    match tracker event with
    | None => (Ok tt, w1)
    | Some e => (Raise e, w1)
    end.

(** [int(round(timestamp.timestamp() * 1000))]. *)
Definition epoch_millis (t : datetime) : Z :=
  py_round (float_mul E (posix_timestamp t) (inject_Z 1000)).

(** [not user_id]. *)
Definition falsy_user_id (user_id : option string) : bool :=
  match user_id with
  | None => true
  | Some u => String.eqb u ""
  end.

(** Lines 26-95. *)
Definition get_items (user_id : option string) (current_item_id : option string)
    (item_list : option (list string)) (num_results : Z)
    (tracker : option Tracker) (filter_values context : option value)
    (timestamp : option datetime) (promotion : option value) : M (list nat) :=
  match user_id with
  | None => raise (Exception "user_id is required")
  | Some uid =>
    if String.eqb uid "" then raise (Exception "user_id is required")
    else
      vs <- gets variations ;;
      if Z.of_nat (length vs) <? 2 then
        raise (Exception ("Experiment " +:+ self_id self
                            +:+ " does not have 2 or more variations"))
      else
        variation_idx <- _select_variation_index ;;
        log_record (DebugAssigned uid variation_idx) ;;;
        _increment_exposure_count variation_idx ;;;
        vs' <- gets variations ;;
        variation <- lift_result (py_getitem vs' variation_idx) ;;
        let resolve_params :=
          {| rp_user_id := uid;
             rp_product_id := current_item_id;
             rp_product_list := item_list;
             rp_num_results := num_results;
             rp_filter_values := filter_values;
             rp_context := context;
             rp_promotion := promotion |} in
        items <- resolver_get_items variation_idx variation resolve_params ;;
        modify (fun w => set_heap (annotate uid variation_idx 1 items (heap w)) w) ;;;
        match tracker with
        | None => ret items
        | Some tr =>
            ts <- match timestamp with
                  | Some t => ret t
                  | None => read_clock (now E)
                  end ;;
            let event :=
              {| event_type := "Experiment Exposure";
                 event_timestamp := epoch_millis ts;
                 attributes :=
                   {| attr_user_id := uid;
                      attr_experiment := self;
                      attr_variation_index := variation_idx;
                      attr_variation := config variation |} |} in
            log_exposure tr event ;;;
            ret items
        end
  end.

End Experiment.

(** ** Vocabulary of the statements *)

Section Vocabulary.

Context (E : Env) (self : Identity).

(** The running maximum of [argmax_from]: [best] sits at [best_i] in the
    prefix already scanned, nothing scanned exceeds it and nothing before it
    reaches it. *)
Definition first_max (l : list Q) (i : nat) (m : Q) : Prop :=
  l !! i = Some m /\
  (forall j y, l !! j = Some y -> (y <= m)%Q) /\
  (forall j y, (j < i)%nat -> l !! j = Some y -> (y < m)%Q).

(** The count stored under [k], as [int(config.get(k, 0))] gives it; 0 when
    the key is absent. *)
Definition count_of (c : gmap string value) (k : string) : Z :=
  match py_int E (dict_get c k (VInt 0)) with
  | Ok z => z
  | Raise _ => 0
  end.

Definition exposures_of (vs : list Variation) : list Z :=
  map (fun v => count_of (config v) "exposures") vs.

Definition conversions_of (vs : list Variation) : list Z :=
  map (fun v => count_of (config v) "conversions") vs.

(** The float that lines 105-106 store for the count under [k]. *)
Definition float_count (c : gmap string value) (k : string) : Z :=
  match read_count E c k with
  | Ok x => x
  | Raise _ => 0
  end.

(** The assignment of the count under [k] raises nothing: [int] accepts the
    stored value and the result fits a float. *)
Definition storable_count (c : gmap string value) (k : string) : bool :=
  match read_count E c k with
  | Ok _ => true
  | Raise _ => false
  end.

Definition reads_ok (v : Variation) : bool :=
  storable_count (config v) "exposures"
  && storable_count (config v) "conversions".

Definition counts_storable (vs : list Variation) : bool :=
  forallb reads_ok vs.

(** The two arrays after the loop of lines 103-106. *)
Definition float_exposures_of (vs : list Variation) : list Z :=
  map (fun v => float_count (config v) "exposures") vs.

Definition float_conversions_of (vs : list Variation) : list Z :=
  map (fun v => float_count (config v) "conversions") vs.

(** The shape parameters handed to [np.random.beta], per variation. *)
Definition posterior_params (vs : list Variation) : list (Z * Z) :=
  zip (map float_add_1 (float_conversions_of vs))
      (map float_add_1 (float_exposures_of vs)).




(** The write attempt of lines 111-114, with its two handlers. *)
Definition log_attempt (exposures conversions : list Z) (theta : list Q)
    : M unit :=
  try_except (_log_experiment_data E self exposures conversions theta)
             (fun e => log_record (ErrorLogging e)).

Definition snapshot_at (exposures conversions : list Z) (theta : list Q)
    (w : World) : TelemetrySnapshot :=
  {| snap_experiment_id := self_id self;
     snap_timestamp := isoformat E (utcnow E (ticks w));
     snap_exposures := exposures;
     snap_conversions := conversions;
     snap_theta := theta |}.

(** The draws of a selection made in world [w]. *)
Definition theta_of (w : World) : list Q :=
  (beta_draws E (posterior_params (variations w)) (rng w)).1.

(** A variation after one exposure has been counted on it. *)
Definition counted (variation : Variation) : Variation :=
  {| config :=
       <["exposures" := VInt (count_of (config variation) "exposures" + 1)]>
         (config variation);
     resolver := resolver variation |}.

(** The variations after the exposure of variation [i] has been counted. *)
Definition count_exposure (i : nat) (vs : list Variation) : list Variation :=
  match vs !! i with
  | Some variation => <[i := counted variation]> vs
  | None => vs
  end.

Definition resolve_params_of (uid : string) (current_item_id : option string)
    (item_list : option (list string)) (num_results : Z)
    (filter_values context promotion : option value) : ResolveParams :=
  {| rp_user_id := uid;
     rp_product_id := current_item_id;
     rp_product_list := item_list;
     rp_num_results := num_results;
     rp_filter_values := filter_values;
     rp_context := context;
     rp_promotion := promotion |}.

(** The event of lines 77-91 for a request at time [ts]. *)
Definition exposure_event (uid : string) (variation_idx : Z)
    (variation : Variation) (ts : datetime) : ExposureEvent :=
  {| event_type := "Experiment Exposure";
     event_timestamp := epoch_millis E ts;
     attributes :=
       {| attr_user_id := uid;
          attr_experiment := self;
          attr_variation_index := variation_idx;
          attr_variation := config variation |} |}.

(** The time stamped on the event: the caller's, else the clock's. *)
Definition event_time (timestamp : option datetime) (w : World) : datetime :=
  match timestamp with
  | Some t => t
  | None => now E (ticks w)
  end.

Definition after_clock (timestamp : option datetime) (w : World) : World :=
  match timestamp with
  | Some _ => w
  | None => set_ticks (S (ticks w)) w
  end.

(** The part of [get_items] after the resolver has returned [items]
    (lines 55-95), from the world [w] the resolver left. *)
Definition annotate_and_track (uid : string) (variation_idx : Z)
    (variation : Variation) (items : list nat) (tracker : option Tracker)
    (timestamp : option datetime) (w : World) : result (list nat) * World :=
  let w1 := set_heap (annotate E self uid variation_idx 1 items (heap w)) w in
  match tracker with
  | None => (Ok items, w1)
  | Some tr =>
      let event :=
        exposure_event uid variation_idx variation (event_time timestamp w1) in
      let w2 := after_clock timestamp w1 in
      let w3 := set_tracker_calls (tracker_calls w2 ++ [event]) w2 in
      match tr event with
      | None => (Ok items, w3)
      | Some e => (Raise e, w3)
      end
  end.

(** The part of [get_items] after the selection has returned [idx]
    (lines 36-95), from the world [w1] the selection left. *)
Definition serve (uid : string) (current_item_id : option string)
    (item_list : option (list string)) (num_results : Z)
    (tracker : option Tracker) (filter_values context : option value)
    (timestamp : option datetime) (promotion : option value)
    (idx : Z) (w1 : World) : result (list nat) * World :=
  match _increment_exposure_count E idx
          (set_app_log (app_log w1 ++ [DebugAssigned uid idx]) w1) with
  | (Raise e, w2) => (Raise e, w2)
  | (Ok _, w2) =>
      match py_getitem (variations w2) idx with
      | Raise e => (Raise e, w2)
      | Ok variation =>
          let params :=
            resolve_params_of uid current_item_id item_list num_results
                              filter_values context promotion in
          let w3 :=
            set_resolver_calls (resolver_calls w2 ++ [(idx, params)]) w2 in
          match resolver variation params (heap w2) with
          | (Raise e, h) => (Raise e, set_heap h w3)
          | (Ok items, h) =>
              annotate_and_track uid idx variation items tracker
                                 timestamp (set_heap h w3)
          end
      end
  end.

(** The stamp [get_items] builds for the item of rank [rank]. *)
Definition stamp_at (uid : string) (variation_idx rank : Z)
    : ItemExperimentStamp :=
  {| stamp_id := self_id self;
     stamp_feature := self_feature self;
     stamp_name := self_name self;
     stamp_type := self_type self;
     variationIndex := variation_idx;
     resultRank := rank;
     correlationId := _create_correlation_id E self uid variation_idx rank |}.

(** The stamp found under ['experiment'] in the item behind [l]. *)
Definition stamp_of (h : gmap nat (gmap string value)) (l : nat)
    : option ItemExperimentStamp :=
  match heap_get h l !! "experiment" with
  | Some (VExperiment st) => Some st
  | _ => None
  end.

(** Two worlds that differ at most in the rows of [experiment_logs] and in
    the application log. *)
Definition agree (wa wb : World) : Prop :=
  variations wa = variations wb /\ rng wa = rng wb /\ ticks wa = ticks wb /\
  heap wa = heap wb /\ put_attempts wa = put_attempts wb /\
  tracker_calls wa = tracker_calls wb /\
  resolver_calls wa = resolver_calls wb.

(** [int] accepts what is stored under [k] (or the key is absent). *)
Definition readable_count (c : gmap string value) (k : string) : bool :=
  match py_int E (dict_get c k (VInt 0)) with
  | Ok _ => true
  | Raise _ => false
  end.

Definition counts_readable (vs : list Variation) : bool :=
  forallb (fun v => readable_count (config v) "exposures"
                    && readable_count (config v) "conversions") vs.

(** The loop of lines 103-106 on the integers [int] returned: the two
    float arrays, or the [OverflowError] of the first store that fails. *)
Fixpoint store_counts (exposures conversions : list Z)
    : result (list Z * list Z) :=
  match exposures, conversions with
  | ex :: exposures', cv :: conversions' =>
      match float_of_int ex with
      | Raise e => Raise e
      | Ok x =>
          match float_of_int cv with
          | Raise e => Raise e
          | Ok y =>
              match store_counts exposures' conversions' with
              | Raise e => Raise e
              | Ok (xs, ys) => Ok (x :: xs, y :: ys)
              end
          end
      end
  | _, _ => Ok ([], [])
  end.

(** The first assignment of variation [v] that raises, raises [e]. *)
Definition first_failed_read (v : Variation) (e : exn) : Prop :=
  read_count E (config v) "exposures" = Raise e \/
  (storable_count (config v) "exposures" = true /\
   read_count E (config v) "conversions" = Raise e).

(** The snapshot a selection made in world [w] hands to [put_item]. *)
Definition selection_snapshot (w : World) : TelemetrySnapshot :=
  snapshot_at (float_exposures_of (variations w))
              (float_conversions_of (variations w)) (theta_of w) w.

(** What the selection writes to the application log about the snapshot,
    according to what [put_item] did (lines 130-134). *)
Definition snapshot_log_record (item : TelemetrySnapshot)
    (outcome : option exn) : LogRecord :=
  match outcome with
  | None => DebugLogged (snap_timestamp item)
  | Some e => if is_ClientError E e then ErrorFailedToLog e
              else ErrorUnexpected e
  end.

(** Position [k] is the last one at which [l] occurs in [items]. *)
Definition last_position (items : list nat) (k : nat) (l : nat) : Prop :=
  items !! k = Some l /\
  forall j : nat, (k < j)%nat -> items !! j <> Some l.

End Vocabulary.

(** ** A concrete correlation-id generator

    One generator satisfying [CorrelationIdGenerator], used to run the model
    on concrete requests: the four components joined by a tilde. *)

Definition decimal (z : Z) : string := NilEmpty.string_of_int (Z.to_int z).

Definition tilde_id (self : Identity) (user_id : string) (variation_idx rank : Z)
    : string :=
  (self_id self ++ "~" ++ user_id ++ "~" ++ decimal variation_idx ++ "~"
     ++ decimal rank)%string.

Definition tilde_generator : CorrelationIdGenerator.
Proof.
  refine {| create_id := tilde_id |}.
  assert (Hdec : forall a b : Z, decimal a = decimal b -> a = b).
  { unfold decimal. intros a b H.
    assert (Hi : Some (Z.to_int a) = Some (Z.to_int b))
      by (rewrite <- !NilEmpty.isi; now rewrite H).
    injection Hi as Hi.
    rewrite <- (DecimalZ.of_to a), <- (DecimalZ.of_to b). now rewrite Hi. }
  assert (Happ : forall p a b : string, (p ++ a = p ++ b)%string -> a = b).
  { induction p as [|c p IH]; simpl; intros a b H; [assumption|].
    injection H as H. auto. }
  intros self user_id variation_idx r1 r2 Hne H. apply Hne.
  unfold tilde_id in H. repeat (apply Happ in H). now apply Hdec.
Defined.

(** ** Concrete collaborators and requests *)

Module Demo.

Definition self : Identity :=
  {| self_id := "exp-1"; self_feature := "home_product_recs";
     self_name := "mab-test"; self_type := "mab" |}.

(** A deterministic stand-in for the generator: the posterior mean. *)
Definition mean_sample (r : nat) (a b : Z) : Q * nat :=
  (Qred (a # Z.to_pos (a + b)), S r).

Definition clock (k : nat) : datetime :=
  {| posix_timestamp := inject_Z (1700000000 + Z.of_nat k) |}.

Definition env : Env :=
  {| beta_sample := mean_sample;
     float_mul := fun x y => Qred (x * y);
     py_int_of_str :=
       fun s => Raise (ValueError ("invalid literal for int() with base 10: '"
                                     +:+ s +:+ "'"));
     client_error_subclass :=
       fun cls => String.eqb cls "ProvisionedThroughputExceededException";
     now := clock;
     utcnow := clock;
     isoformat := fun t => decimal (Qfloor (posix_timestamp t));
     put_item := fun _ _ => None;
     correlation := tilde_generator |}.

Definition store_down (item : TelemetrySnapshot) (rows : list TelemetrySnapshot)
    : option exn :=
  Some (PyExn "ClientError" "ProvisionedThroughputExceededException").

(** A resolver that stores the given objects and returns the given
    references to them. *)
Definition fixed_resolver (objs : list (nat * gmap string value))
    (refs : list nat) : Resolver :=
  fun _ h => (Ok refs, foldr (fun o acc => <[o.1 := o.2]> acc) h objs).

Definition raising_resolver (e : exn) : Resolver := fun _ h => (Raise e, h).

Definition product (item_id : string) : gmap string value :=
  {[ "itemId" := VStr item_id ]}.

Definition xyz : Resolver :=
  fixed_resolver [(0%nat, product "x"); (1%nat, product "y"); (2%nat, product "z")]
                 [0%nat; 1%nat; 2%nat].

(** The same dictionary object returned at two positions. *)
Definition twice_x : Resolver :=
  fixed_resolver [(0%nat, product "x")] [0%nat; 0%nat].

Definition counts (exposures conversions : Z) : gmap string value :=
  {[ "exposures" := VInt exposures; "conversions" := VInt conversions ]}.

Definition world_of (vs : list Variation) : World :=
  {| variations := vs; rng := 0; ticks := 0; heap := ∅; log_table := [];
     put_attempts := []; tracker_calls := []; resolver_calls := [];
     app_log := [] |}.

(** Variation A = {exposures: 10, conversions: 9},
    variation B = {exposures: 10, conversions: 1}. *)
Definition world_ab (ra rb : Resolver) : World :=
  world_of [ {| config := counts 10 9; resolver := ra |};
             {| config := counts 10 1; resolver := rb |} ].

Definition quiet_tracker : Tracker := fun _ => None.

Definition failing_tracker : Tracker :=
  fun _ => Some (PyExn "ConnectionError" "tracker unreachable").

Definition call (E : Env) (user_id : option string) (tracker : option Tracker)
    (timestamp : option datetime) : M (list nat) :=
  get_items E self user_id None None 3 tracker None None timestamp None.

End Demo.

(** ** Experiments at the edges *)

Module Cases.

(** Variation B has lost three conversions: its stored count is -3. *)
Definition world_negative_conversions : World :=
  Demo.world_of [ {| config := Demo.counts 10 9; resolver := Demo.xyz |};
                  {| config := Demo.counts 10 (-3); resolver := Demo.xyz |} ].

Definition world_negative_exposures : World :=
  Demo.world_of [ {| config := Demo.counts (-1) 0; resolver := Demo.xyz |};
                  {| config := Demo.counts 10 1; resolver := Demo.xyz |} ].

(** Variation A stores [None] under ['exposures']. *)
Definition world_none_exposures : World :=
  Demo.world_of
    [ {| config := {[ "exposures" := VNone; "conversions" := VInt 1 ]};
         resolver := Demo.xyz |};
      {| config := Demo.counts 10 1; resolver := Demo.xyz |} ].

(** The same counts as [Demo.world_ab] under other keys, resolvers and
    heap. *)
Definition world_ab_noisy : World :=
  {| variations :=
       [ {| config := <["algorithm" := VStr "popular"]> (Demo.counts 10 9);
            resolver := Demo.twice_x |};
         {| config := <["exposures" := VDec (21 # 2)]> (Demo.counts 0 1);
            resolver := Demo.raising_resolver (PyExn "KeyError" "x") |} ];
     rng := 0; ticks := 7; heap := {[ 5%nat := Demo.product "q" ]};
     log_table := []; put_attempts := []; tracker_calls := [];
     resolver_calls := []; app_log := [] |}.


(** Variation A has been shown 2^53 + 1 times. *)
Definition world_past_53_bits : World :=
  Demo.world_of
    [ {| config := Demo.counts (2 ^ 53 + 1) 9; resolver := Demo.xyz |};
      {| config := Demo.counts 10 1; resolver := Demo.xyz |} ].

(** Variation A overflows a float and variation B stores [None]. *)
Definition world_huge_then_none : World :=
  Demo.world_of
    [ {| config := Demo.counts (10 ^ 400) 9; resolver := Demo.xyz |};
      {| config := {[ "exposures" := VNone; "conversions" := VInt 1 ]};
         resolver := Demo.xyz |} ].

(** A store that raises a class derived from [ClientError]. *)
Definition store_throttled (item : TelemetrySnapshot)
    (rows : list TelemetrySnapshot) : option exn :=
  Some (PyExn "ProvisionedThroughputExceededException" "rate exceeded").

(** A resolver that finds nothing. *)
Definition nothing : Resolver := Demo.fixed_resolver [] [].

(** The same dictionary first, then another one, then the first again. *)
Definition x_y_x : Resolver :=
  Demo.fixed_resolver [(0%nat, Demo.product "x"); (1%nat, Demo.product "y")]
                      [0%nat; 1%nat; 0%nat].

End Cases.

(** ** Facts about the primitives *)

Lemma Qlt_bool_true (x y : Q) : Qlt_bool x y = true -> (x < y)%Q.
Proof.
  unfold Qlt_bool. intros H. apply Qnot_le_lt. intros Hle.
  apply Qle_bool_iff in Hle. rewrite Hle in H. discriminate.
Qed.

Lemma Qlt_bool_false (x y : Q) : Qlt_bool x y = false -> (y <= x)%Q.
Proof.
  unfold Qlt_bool. intros H. apply Qle_bool_iff.
  destruct (Qle_bool y x); [reflexivity | discriminate].
Qed.

Lemma Qtruncate_nonneg (q : Q) : (0 <= q)%Q -> 0 <= Qtruncate q.
Proof.
  destruct q as [n d]. unfold Qle, Qtruncate. simpl. intros H.
  apply Z.quot_pos; lia.
Qed.

Lemma argmax_from_first_max (l : list Q) :
  forall (pre : list Q) (best_i : nat) (best : Q),
    first_max pre best_i best ->
    exists m, first_max (pre ++ l) (argmax_from best_i best (length pre) l) m.
Proof.
  induction l as [|x l IH]; intros pre best_i best Hinv.
  - simpl. rewrite app_nil_r. eauto.
  - destruct Hinv as (Hat & Hmax & Hfirst).
    assert (Hlen : length (pre ++ [x]) = S (length pre))
      by (rewrite length_app; simpl; lia).
    simpl. replace (pre ++ x :: l) with ((pre ++ [x]) ++ l)
      by (rewrite <- app_assoc; reflexivity).
    rewrite <- Hlen.
    destruct (Qlt_bool best x) eqn:Hcmp.
    + apply Qlt_bool_true in Hcmp.
      apply IH. repeat split.
      * rewrite lookup_app_r by lia. replace (length pre - length pre)%nat with 0%nat by lia.
        reflexivity.
      * intros j y Hj. destruct (decide (j < length pre)%nat) as [Hlt|Hge].
        -- rewrite lookup_app_l in Hj by assumption.
           apply Qlt_le_weak. eapply Qle_lt_trans; [eapply Hmax; eassumption | assumption].
        -- rewrite lookup_app_r in Hj by lia.
           destruct (j - length pre)%nat; simpl in Hj; [|discriminate].
           injection Hj as <-. apply Qle_refl.
      * intros j y Hlt Hj. rewrite lookup_app_l in Hj by assumption.
        eapply Qle_lt_trans; [eapply Hmax; eassumption | assumption].
    + apply Qlt_bool_false in Hcmp.
      assert (Hbi : (best_i < length pre)%nat) by (eapply lookup_lt_Some; eassumption).
      apply IH. repeat split.
      * rewrite lookup_app_l by assumption. assumption.
      * intros j y Hj. destruct (decide (j < length pre)%nat) as [Hlt|Hge].
        -- rewrite lookup_app_l in Hj by assumption. eapply Hmax; eassumption.
        -- rewrite lookup_app_r in Hj by lia.
           destruct (j - length pre)%nat; simpl in Hj; [|discriminate].
           injection Hj as <-. assumption.
      * intros j y Hlt Hj. rewrite lookup_app_l in Hj by lia.
        eapply Hfirst; eassumption.
Qed.

Lemma np_argmax_first_max (theta : list Q) :
  theta <> [] ->
  exists (i : nat) (m : Q),
    np_argmax theta = Ok (Z.of_nat i) /\ first_max theta i m.
Proof.
  destruct theta as [|x l]; [congruence|]. intros _.
  destruct (argmax_from_first_max l [x] 0%nat x) as [m Hm].
  - repeat split.
    + intros [|j] y Hj; simpl in Hj; [|discriminate].
      injection Hj as <-. apply Qle_refl.
    + intros j y Hlt. lia.
  - exists (argmax_from 0 x 1 l), m. split; [reflexivity | exact Hm].
Qed.

Lemma py_getitem_nat {A} (l : list A) (i : nat) (a : A) :
  l !! i = Some a -> py_getitem l (Z.of_nat i) = Ok a.
Proof.
  intros H. unfold py_getitem, py_norm_index.
  assert (Hneg : (Z.of_nat i <? 0) = false) by (apply Z.ltb_ge; lia).
  rewrite Hneg. cbn iota. rewrite Hneg, Nat2Z.id, H. reflexivity.
Qed.

Lemma py_norm_index_nat {A} (l : list A) (i : nat) :
  Z.to_nat (py_norm_index l (Z.of_nat i)) = i.
Proof.
  unfold py_norm_index.
  assert (Hneg : (Z.of_nat i <? 0) = false) by (apply Z.ltb_ge; lia).
  rewrite Hneg. apply Nat2Z.id.
Qed.



(** The kept significand of a non-zero integer is not zero. *)
Lemma round_binary64_significand (a : Z) :
  0 < a -> 0 < Z.log2 a - 52 -> 1 <= Z.shiftr a (Z.log2 a - 52).
Proof.
  intros Ha He. rewrite Z.shiftr_div_pow2 by lia.
  apply Z.div_le_lower_bound; [apply Z.pow_pos_nonneg; lia|].
  rewrite Z.mul_1_r.
  transitivity (2 ^ Z.log2 a); [apply Z.pow_le_mono_r; lia|].
  apply Z.log2_spec. exact Ha.
Qed.

Lemma round_binary64_pos (z : Z) : 0 < z -> 0 < round_binary64 z.
Proof.
  intros Hz. unfold round_binary64. cbv zeta.
  rewrite (Z.abs_eq z) by lia.
  destruct (Z.log2 z - 52 <=? 0) eqn:He; [exact Hz|].
  apply Z.leb_gt in He.
  pose proof (round_binary64_significand z Hz He) as Hq.
  rewrite Z.sgn_pos by exact Hz. rewrite Z.mul_1_l.
  rewrite Z.shiftl_mul_pow2 by lia.
  apply Z.mul_pos_pos; [|apply Z.pow_pos_nonneg; lia].
  destruct (_ <? _); [lia|]. destruct (_ <? _); [lia|].
  destruct (Z.even _); lia.
Qed.

Lemma round_binary64_nonpos (z : Z) : z <= 0 -> round_binary64 z <= 0.
Proof.
  intros Hz. unfold round_binary64. cbv zeta.
  destruct (Z.log2 (Z.abs z) - 52 <=? 0) eqn:He; [exact Hz|].
  apply Z.leb_gt in He.
  destruct (Z.eq_dec z 0) as [->|Hne]; [reflexivity|].
  assert (Ha : 0 < Z.abs z) by lia.
  pose proof (round_binary64_significand (Z.abs z) Ha He) as Hq.
  rewrite Z.sgn_neg by lia.
  rewrite Z.shiftl_mul_pow2 by lia.
  assert (Hp : 0 < 2 ^ (Z.log2 (Z.abs z) - 52))
    by (apply Z.pow_pos_nonneg; lia).
  destruct (_ <? _); [nia|]. destruct (_ <? _); [nia|].
  destruct (Z.even _); nia.
Qed.



Lemma float_add_1_pos (x : Z) : 0 <= x -> 0 < float_add_1 x.
Proof. intros H. unfold float_add_1. apply round_binary64_pos. lia. Qed.

Lemma float_add_1_nonpos (x : Z) : x < 0 -> float_add_1 x <= 0.
Proof. intros H. unfold float_add_1. apply round_binary64_nonpos. lia. Qed.

(** ** Selection *)

Section Selection.

Context (E : Env) (self : Identity).

Lemma count_of_absent (c : gmap string value) (k : string) :
  c !! k = None -> count_of E c k = 0.
Proof. intros H. unfold count_of, dict_get. rewrite H. reflexivity. Qed.

(** An assignment that raises nothing has stored the float of the
    integer [int] returned. *)
Lemma read_count_ok (c : gmap string value) (k : string) (x : Z) :
  read_count E c k = Ok x ->
  py_int E (dict_get c k (VInt 0)) = Ok (count_of E c k) /\
  float_of_int (count_of E c k) = Ok x /\
  float_count E c k = x.
Proof.
  unfold float_count, count_of. intros H. rewrite H. unfold read_count in H.
  destruct (py_int E (dict_get c k (VInt 0))) as [z|e]; [|discriminate].
  auto.
Qed.




Lemma read_counts_ok_eq (vs : list Variation) (exposures conversions : list Z) :
  read_counts E vs = Ok (exposures, conversions) ->
  exposures = float_exposures_of E vs /\
  conversions = float_conversions_of E vs.
Proof.
  revert exposures conversions.
  induction vs as [|v vs IH]; intros exposures conversions H.
  - injection H as <- <-. split; reflexivity.
  - simpl in H.
    unfold float_exposures_of, float_conversions_of, float_count. simpl.
    destruct (read_count E (config v) "exposures") as [ex|e]; [|discriminate].
    destruct (read_count E (config v) "conversions") as [cv|e];
      [|discriminate].
    destruct (read_counts E vs) as [[exs cvs]|e]; [|discriminate].
    injection H as <- <-.
    destruct (IH exs cvs eq_refl) as [-> ->]. split; reflexivity.
Qed.

Lemma read_counts_storable (vs : list Variation) :
  counts_storable E vs = true ->
  read_counts E vs =
    Ok (float_exposures_of E vs, float_conversions_of E vs).
Proof.
  intros H.
  destruct (read_counts E vs) as [[exposures conversions]|e] eqn:Hrc.
  - apply read_counts_ok_eq in Hrc as [-> ->]. reflexivity.
  - exfalso. revert e Hrc H.
    induction vs as [|v vs IH]; intros e Hrc H; [discriminate|].
    unfold counts_storable in H. simpl in H, Hrc.
    apply andb_prop in H as [Hv Hvs]. apply andb_prop in Hv as [Hex Hcv].
    unfold storable_count in Hex, Hcv.
    destruct (read_count E (config v) "exposures"); [|discriminate].
    destruct (read_count E (config v) "conversions"); [|discriminate].
    destruct (read_counts E vs) as [[exs cvs]|e'] eqn:Hrc'; [discriminate|].
    eapply IH; [reflexivity | exact Hvs].
Qed.

Lemma read_counts_ok_storable (vs : list Variation)
    (exposures conversions : list Z) :
  read_counts E vs = Ok (exposures, conversions) ->
  counts_storable E vs = true.
Proof.
  revert exposures conversions.
  induction vs as [|v vs IH]; intros exposures conversions H; [reflexivity|].
  simpl in H. unfold counts_storable. simpl. unfold reads_ok, storable_count.
  destruct (read_count E (config v) "exposures") as [ex|e]; [|discriminate].
  destruct (read_count E (config v) "conversions") as [cv|e]; [|discriminate].
  destruct (read_counts E vs) as [[exs cvs]|e] eqn:Hrc; [|discriminate].
  simpl. exact (IH exs cvs eq_refl).
Qed.



Lemma shape_positive (l : list Z) :
  Forall (fun x => 0 <= x) l ->
  forallb (fun x => 0 <? x) (map float_add_1 l) = true.
Proof.
  induction 1 as [|x l Hx _ IH]; [reflexivity|].
  simpl. rewrite IH, andb_true_r. apply Z.ltb_lt. now apply float_add_1_pos.
Qed.

Lemma shape_not_positive (l : list Z) :
  (exists x, x ∈ l /\ x < 0) ->
  forallb (fun x => 0 <? x) (map float_add_1 l) = false.
Proof.
  intros (x & Hin & Hneg). induction l as [|y l IH].
  - apply elem_of_nil in Hin. contradiction.
  - simpl. apply andb_false_iff.
    apply elem_of_cons in Hin as [<-|Hin].
    + left. apply Z.ltb_ge. now apply float_add_1_nonpos.
    + right. apply IH. exact Hin.
Qed.

Lemma length_beta_draws (ab : list (Z * Z)) :
  forall r, length (beta_draws E ab r).1 = length ab.
Proof.
  induction ab as [|[a b] ab IH]; intros r; [reflexivity|].
  simpl. destruct (beta_sample E r a b) as [x r1].
  specialize (IH r1). destruct (beta_draws E ab r1) as [xs r2].
  simpl in *. now rewrite IH.
Qed.


Lemma length_posterior_params (vs : list Variation) :
  length (posterior_params E vs) = length vs.
Proof.
  unfold posterior_params, float_conversions_of, float_exposures_of.
  rewrite length_zip, !length_map. lia.
Qed.


(** The attempt always returns; it reads the clock once, calls [put_item]
    once and leaves the rest of the world as it was, except for the rows of
    the table and the application log. *)
Lemma log_attempt_returns (exposures conversions : list Z) (theta : list Q)
    (w : World) :
  exists w',
    log_attempt E self exposures conversions theta w = (Ok tt, w') /\
    variations w' = variations w /\ rng w' = rng w /\
    ticks w' = S (ticks w) /\ heap w' = heap w /\
    put_attempts w' =
      put_attempts w ++ [snapshot_at E self exposures conversions theta w] /\
    tracker_calls w' = tracker_calls w /\
    resolver_calls w' = resolver_calls w.
Proof.
  unfold log_attempt, _log_experiment_data, try_except, bind, read_clock,
    log_table_put_item, log_record, modify, snapshot_at.
  simpl.
  match goal with
  | |- context [put_item E ?i (log_table w)] =>
      destruct (put_item E i (log_table w)) as [e|]; simpl
  end.
  - destruct (is_ClientError E e); simpl; eexists; repeat split.
  - eexists; repeat split.
Qed.

(** Normal form of [_select_variation_index]. *)
Lemma select_variation_index_run (w : World) :
  _select_variation_index E self w =
    match read_counts E (variations w) with
    | Raise e => (Raise e, w)
    | Ok (exposures, conversions) =>
        match np_random_beta E (map float_add_1 conversions)
                               (map float_add_1 exposures) w with
        | (Raise e, w1) => (Raise e, w1)
        | (Ok theta, w1) =>
            (np_argmax theta, (log_attempt E self exposures conversions theta w1).2)
        end
    end.
Proof.
  unfold _select_variation_index, bind, gets, lift_result. simpl.
  destruct (read_counts E (variations w)) as [[exposures conversions]|e];
    [|reflexivity].
  simpl.
  destruct (np_random_beta E _ _ w) as [[theta|e] w1]; [|reflexivity].
  fold (log_attempt E self exposures conversions theta).
  destruct (log_attempt_returns exposures conversions theta w1) as (w2 & -> & _).
  simpl. destruct (np_argmax theta); reflexivity.
Qed.



End Selection.

(** ** The request path *)

Section Request.

Context (E : Env) (self : Identity).

(** What a selection leaves behind: only the generator, the clock, the
    table and the application log can differ. *)
Lemma select_variation_index_frame (w : World) :
  let w1 := (_select_variation_index E self w).2 in
  variations w1 = variations w /\ heap w1 = heap w /\
  tracker_calls w1 = tracker_calls w /\
  resolver_calls w1 = resolver_calls w.
Proof.
  cbv zeta. rewrite select_variation_index_run.
  destruct (read_counts E (variations w)) as [[exposures conversions]|e];
    [|simpl; auto].
  unfold np_random_beta.
  destruct (forallb _ _); [|simpl; auto].
  destruct (forallb _ _); [|simpl; auto].
  destruct (beta_draws E _ (rng w)) as [theta r].
  destruct (log_attempt_returns E self exposures conversions theta (set_rng r w))
    as (w2 & -> & Hv & _ & _ & Hh & _ & Ht & Hr).
  simpl. auto.
Qed.

(** A selection that returns has made exactly one write attempt. *)
Lemma select_variation_index_attempt (w w1 : World) (idx : Z) :
  _select_variation_index E self w = (Ok idx, w1) ->
  exists item, put_attempts w1 = put_attempts w ++ [item].
Proof.
  rewrite select_variation_index_run.
  destruct (read_counts E (variations w)) as [[exposures conversions]|e];
    [|discriminate].
  unfold np_random_beta.
  destruct (forallb _ _); [|discriminate].
  destruct (forallb _ _); [|discriminate].
  destruct (beta_draws E _ (rng w)) as [theta r].
  destruct (log_attempt_returns E self exposures conversions theta (set_rng r w))
    as (w2 & -> & _ & _ & _ & _ & Hp & _).
  simpl. intros H. injection H as _ <-. eauto.
Qed.

Lemma increment_exposure_count_run (idx : Z) (w : World) :
  _increment_exposure_count E idx w =
    match py_getitem (variations w) idx with
    | Raise e => (Raise e, w)
    | Ok variation =>
        match py_int E (dict_get (config variation) "exposures" (VInt 0)) with
        | Raise e => (Raise e, w)
        | Ok count =>
            (Ok tt,
             set_variations
               (<[Z.to_nat (py_norm_index (variations w) idx) :=
                    {| config := <["exposures" := VInt (count + 1)]>
                                   (config variation);
                       resolver := resolver variation |}]> (variations w)) w)
        end
    end.
Proof.
  unfold _increment_exposure_count, bind, gets, lift_result, modify. simpl.
  destruct (py_getitem (variations w) idx) as [variation|e]; [|reflexivity].
  simpl. destruct (py_int E _); reflexivity.
Qed.

Lemma py_getitem_inv {A} (l : list A) (i : Z) (a : A) :
  py_getitem l i = Ok a ->
  l !! Z.to_nat (py_norm_index l i) = Some a.
Proof.
  unfold py_getitem. destruct (py_norm_index l i <? 0); [discriminate|].
  destruct (l !! Z.to_nat (py_norm_index l i)); [|discriminate].
  congruence.
Qed.

(** A successful increment adds one to the exposures of the variation at
    the index and leaves everything else as it was. *)
Lemma increment_exposure_count_ok (idx : Z) (w w' : World) :
  _increment_exposure_count E idx w = (Ok tt, w') ->
  w' = set_variations
         (count_exposure E (Z.to_nat (py_norm_index (variations w) idx))
                         (variations w)) w.
Proof.
  rewrite increment_exposure_count_run.
  destruct (py_getitem (variations w) idx) as [variation|e] eqn:Hget;
    [|discriminate].
  apply py_getitem_inv in Hget.
  unfold count_exposure, counted, count_of. rewrite Hget.
  destruct (py_int E _) as [count|e]; [|discriminate].
  congruence.
Qed.

Lemma count_of_counted (v : Variation) :
  count_of E (config (counted E v)) "exposures" =
    count_of E (config v) "exposures" + 1.
Proof.
  unfold counted. simpl. unfold count_of at 1, dict_get.
  rewrite lookup_insert_eq. reflexivity.
Qed.

Lemma count_exposure_lookup (i : nat) (vs : list Variation) (v : Variation) :
  vs !! i = Some v -> count_exposure E i vs !! i = Some (counted E v).
Proof.
  intros H. unfold count_exposure. rewrite H.
  apply list_lookup_insert_eq. eapply lookup_lt_Some. exact H.
Qed.

Lemma count_exposure_other (i j : nat) (vs : list Variation) :
  i <> j -> count_exposure E i vs !! j = vs !! j.
Proof.
  intros H. unfold count_exposure. destruct (vs !! i); [|reflexivity].
  now apply list_lookup_insert_ne.
Qed.

Lemma length_count_exposure (i : nat) (vs : list Variation) :
  length (count_exposure E i vs) = length vs.
Proof.
  unfold count_exposure. destruct (vs !! i); [|reflexivity].
  apply length_insert.
Qed.

(** Normal form of [get_items] once the two validations have passed. *)
Lemma get_items_run (uid : string) (current_item_id : option string)
    (item_list : option (list string)) (num_results : Z)
    (tracker : option Tracker) (filter_values context : option value)
    (timestamp : option datetime) (promotion : option value) (w : World) :
  uid <> "" ->
  (2 <= length (variations w))%nat ->
  get_items E self (Some uid) current_item_id item_list num_results tracker
            filter_values context timestamp promotion w =
    match _select_variation_index E self w with
    | (Raise e, w1) => (Raise e, w1)
    | (Ok idx, w1) =>
        serve E self uid current_item_id item_list num_results tracker filter_values
              context timestamp promotion idx w1
    end.
Proof.
  intros Huid Hlen. unfold get_items, serve.
  apply String.eqb_neq in Huid. rewrite Huid.
  unfold bind at 1. unfold gets at 1.
  assert (Hge : (Z.of_nat (length (variations w)) <? 2) = false)
    by (apply Z.ltb_ge; lia).
  rewrite Hge. unfold bind at 1.
  destruct (_select_variation_index E self w) as [[idx|e] w1]; [|reflexivity].
  unfold bind at 1. unfold log_record at 1, modify at 1.
  unfold bind at 1.
  destruct (_increment_exposure_count E idx _) as [[[]|e] w2]; [|reflexivity].
  unfold bind at 1. unfold gets at 1. unfold bind at 1, lift_result at 1.
  destruct (py_getitem (variations w2) idx) as [variation|e]; [|reflexivity].
  unfold bind at 1, resolver_get_items at 1. cbv zeta.
  fold (resolve_params_of uid current_item_id item_list num_results
          filter_values context promotion).
  destruct (resolver variation _ (heap w2)) as [[items|e] h]; [|reflexivity].
  unfold annotate_and_track, bind, modify, ret, read_clock, log_exposure,
    exposure_event, event_time, after_clock.
  destruct tracker as [tr|]; [|reflexivity].
  destruct timestamp as [t|]; simpl.
  - destruct (tr _); reflexivity.
  - destruct (tr _); reflexivity.
Qed.

(** A request that returns items has passed both validations. *)
Lemma get_items_ok_validated (user_id : option string)
    (current_item_id : option string) (item_list : option (list string))
    (num_results : Z) (tracker : option Tracker)
    (filter_values context : option value) (timestamp : option datetime)
    (promotion : option value) (w : World) (items : list nat) :
  (get_items E self user_id current_item_id item_list num_results tracker
             filter_values context timestamp promotion w).1 = Ok items ->
  exists uid,
    user_id = Some uid /\ uid <> "" /\ (2 <= length (variations w))%nat.
Proof.
  unfold get_items. destruct user_id as [uid|]; [|discriminate].
  destruct (String.eqb uid "") eqn:Huid; [discriminate|].
  unfold bind at 1. unfold gets at 1.
  destruct (Z.of_nat (length (variations w)) <? 2) eqn:Hlen; [discriminate|].
  intros _. exists uid. apply String.eqb_neq in Huid. apply Z.ltb_ge in Hlen.
  repeat split; [assumption | lia].
Qed.


Lemma read_counts_ok_lookup (vs : list Variation) (exposures conversions : list Z) :
  read_counts E vs = Ok (exposures, conversions) ->
  length exposures = length vs /\ length conversions = length vs /\
  forall (k : nat) (v : Variation),
    vs !! k = Some v ->
    py_int E (dict_get (config v) "exposures" (VInt 0)) =
      Ok (count_of E (config v) "exposures").
Proof.
  revert exposures conversions.
  induction vs as [|v0 vs IH]; intros exposures conversions H.
  - injection H as <- <-. repeat split. intros k v Hk. discriminate.
  - simpl in H.
    destruct (read_count E (config v0) "exposures") as [ex|e] eqn:Hex;
      [|discriminate].
    destruct (read_count E (config v0) "conversions") as [cv|e];
      [|discriminate].
    destruct (read_counts E vs) as [[exs cvs]|e]; [|discriminate].
    injection H as <- <-.
    destruct (IH exs cvs eq_refl) as (Hl1 & Hl2 & Hall).
    simpl. repeat split; [lia | lia |].
    intros [|k] v Hk.
    + injection Hk as <-. apply (read_count_ok E _ _ _ Hex).
    + apply Hall with k. exact Hk.
Qed.

(** A selection that returns has picked a variation of the experiment, one
    whose exposures [int] accepts. *)
Lemma select_variation_index_ok (w w1 : World) (idx : Z) :
  _select_variation_index E self w = (Ok idx, w1) ->
  exists (i : nat) (v : Variation),
    idx = Z.of_nat i /\ variations w !! i = Some v /\
    py_int E (dict_get (config v) "exposures" (VInt 0)) =
      Ok (count_of E (config v) "exposures").
Proof.
  rewrite select_variation_index_run.
  destruct (read_counts E (variations w)) as [[exposures conversions]|e] eqn:Hrc;
    [|discriminate].
  apply read_counts_ok_lookup in Hrc as (Hl1 & Hl2 & Hall).
  unfold np_random_beta.
  destruct (forallb _ _); [|discriminate].
  destruct (forallb _ _); [|discriminate].
  pose proof (length_beta_draws E
                (zip (map float_add_1 conversions)
                     (map float_add_1 exposures)) (rng w)) as Hlen.
  destruct (beta_draws E _ (rng w)) as [theta r]. simpl in Hlen.
  rewrite length_zip, !length_map in Hlen.
  intros H. injection H as Harg _.
  destruct theta as [|x theta]; [discriminate|].
  destruct (np_argmax_first_max (x :: theta)) as (i & m & Hi & Hat & _);
    [discriminate|].
  rewrite Hi in Harg. injection Harg as <-.
  apply lookup_lt_Some in Hat.
  destruct (lookup_lt_is_Some_2 (variations w) i) as [v Hv]; [lia|].
  exists i, v. repeat split; [exact Hv | apply Hall with i; exact Hv].
Qed.

(** Normal form of [get_items] once the selection has returned: the chosen
    variation's exposure is counted E, its resolver is called on the heap as
    it was, and the items are annotated and tracked. *)
Lemma get_items_chosen (uid : string) (current_item_id : option string)
    (item_list : option (list string)) (num_results : Z)
    (tracker : option Tracker) (filter_values context : option value)
    (timestamp : option datetime) (promotion : option value)
    (w w1 : World) (idx : Z) :
  uid <> "" ->
  (2 <= length (variations w))%nat ->
  _select_variation_index E self w = (Ok idx, w1) ->
  exists (i : nat) (v : Variation),
    idx = Z.of_nat i /\ variations w !! i = Some v /\
    let params :=
      resolve_params_of uid current_item_id item_list num_results
                        filter_values context promotion in
    let w3 :=
      set_resolver_calls (resolver_calls w ++ [(idx, params)])
        (set_variations (count_exposure E i (variations w))
           (set_app_log (app_log w1 ++ [DebugAssigned uid idx]) w1)) in
    get_items E self (Some uid) current_item_id item_list num_results tracker
              filter_values context timestamp promotion w =
      match resolver v params (heap w) with
      | (Raise e, h) => (Raise e, set_heap h w3)
      | (Ok items, h) =>
          annotate_and_track E self uid idx (counted E v) items tracker timestamp
                             (set_heap h w3)
      end.
Proof.
  intros Huid Hlen Hsel.
  destruct (select_variation_index_ok w w1 idx Hsel) as (i & v & -> & Hv & Hint).
  exists i, v. split; [reflexivity|]. split; [exact Hv|]. cbv zeta.
  rewrite (get_items_run uid) by assumption. rewrite Hsel.
  pose proof (select_variation_index_frame w) as Hframe.
  rewrite Hsel in Hframe. cbv zeta in Hframe. simpl in Hframe.
  destruct Hframe as (Hvs & Hheap & _ & Hrc).
  unfold serve. rewrite increment_exposure_count_run. simpl.
  rewrite Hvs, (py_getitem_nat _ _ _ Hv), Hint, py_norm_index_nat.
  simpl.
  assert (Hce : <[i := {| config :=
                            <["exposures" :=
                                VInt (count_of E (config v) "exposures" + 1)]>
                              (config v);
                          resolver := resolver v |}]> (variations w)
                = count_exposure E i (variations w))
    by (unfold count_exposure, counted; rewrite Hv; reflexivity).
  rewrite Hce.
  rewrite (py_getitem_nat _ _ _ (count_exposure_lookup i _ v Hv)).
  simpl. rewrite Hheap, Hrc. reflexivity.
Qed.

(** The fields of the world after the annotation and tracking step. *)
Lemma annotate_and_track_fields (uid : string) (idx : Z) (v : Variation)
    (items : list nat) (tracker : option Tracker)
    (timestamp : option datetime) (w : World) :
  let r := annotate_and_track E self uid idx v items tracker timestamp w in
  heap r.2 = annotate E self uid idx 1 items (heap w) /\
  variations r.2 = variations w /\
  rng r.2 = rng w /\
  put_attempts r.2 = put_attempts w /\
  log_table r.2 = log_table w /\
  resolver_calls r.2 = resolver_calls w /\
  tracker_calls r.2 =
    tracker_calls w ++
      match tracker with
      | None => []
      | Some _ => [exposure_event E self uid idx v (event_time E timestamp w)]
      end /\
  r.1 = match tracker with
        | None => Ok items
        | Some tr =>
            match tr (exposure_event E self uid idx v (event_time E timestamp w)) with
            | None => Ok items
            | Some e => Raise e
            end
        end.
Proof.
  cbv zeta. unfold annotate_and_track.
  destruct tracker as [tr|].
  - destruct timestamp as [t|]; simpl; destruct (tr _); simpl;
      repeat split; reflexivity.
  - simpl. rewrite app_nil_r. repeat split; reflexivity.
Qed.

(** Decomposition of a request that returned items. *)
Lemma get_items_ok_inv (user_id : option string)
    (current_item_id : option string) (item_list : option (list string))
    (num_results : Z) (tracker : option Tracker)
    (filter_values context : option value) (timestamp : option datetime)
    (promotion : option value) (w w' : World) (items : list nat) :
  get_items E self user_id current_item_id item_list num_results tracker
            filter_values context timestamp promotion w = (Ok items, w') ->
  exists (uid : string) (i : nat) (v : Variation) (w1 : World)
         (h : gmap nat (gmap string value)),
    user_id = Some uid /\ uid <> "" /\ (2 <= length (variations w))%nat /\
    _select_variation_index E self w = (Ok (Z.of_nat i), w1) /\
    variations w !! i = Some v /\
    let params :=
      resolve_params_of uid current_item_id item_list num_results
                        filter_values context promotion in
    resolver v params (heap w) = (Ok items, h) /\
    annotate_and_track E self uid (Z.of_nat i) (counted E v) items tracker timestamp
      (set_heap h
         (set_resolver_calls (resolver_calls w ++ [(Z.of_nat i, params)])
            (set_variations (count_exposure E i (variations w))
               (set_app_log (app_log w1 ++ [DebugAssigned uid (Z.of_nat i)])
                            w1)))) = (Ok items, w').
Proof.
  intros Hrun.
  destruct (get_items_ok_validated user_id current_item_id item_list
              num_results tracker filter_values context timestamp promotion
              w items) as (uid & -> & Huid & Hlen).
  { rewrite Hrun. reflexivity. }
  destruct (_select_variation_index E self w) as [[idx|e] w1] eqn:Hsel.
  - destruct (get_items_chosen uid current_item_id item_list num_results
                tracker filter_values context timestamp promotion w w1 idx
                Huid Hlen Hsel) as (i & v & -> & Hv & Hnf).
    cbv zeta in Hnf. rewrite Hnf in Hrun.
    destruct (resolver v _ (heap w)) as [[items0|e] h] eqn:Hres;
      [|discriminate].
    pose proof (annotate_and_track_fields uid (Z.of_nat i) (counted E v) items0
                  tracker timestamp
                  (set_heap h
                     (set_resolver_calls
                        (resolver_calls w ++
                           [(Z.of_nat i,
                             resolve_params_of uid current_item_id item_list
                               num_results filter_values context promotion)])
                        (set_variations (count_exposure E i (variations w))
                           (set_app_log
                              (app_log w1 ++ [DebugAssigned uid (Z.of_nat i)])
                              w1))))) as Hf.
    cbv zeta in Hf. rewrite Hrun in Hf.
    destruct Hf as (_ & _ & _ & _ & _ & _ & _ & Hres1). simpl in Hres1.
    assert (items0 = items) as ->.
    { destruct tracker as [tr|]; [destruct (tr _)|]; congruence. }
    exists uid, i, v, w1, h. cbv zeta.
    split; [reflexivity|]. split; [exact Huid|]. split; [exact Hlen|].
    split; [reflexivity|]. split; [exact Hv|]. split; [exact Hres | exact Hrun].
  - rewrite (get_items_run uid) in Hrun by assumption.
    rewrite Hsel in Hrun. discriminate.
Qed.

End Request.

(** ** Annotation *)

Section Annotation.

Context (E : Env) (self : Identity).

Lemma heap_get_item_update (l l' : nat) (v : value)
    (h : gmap nat (gmap string value)) :
  heap_get (item_update l v h) l' =
    if decide (l = l') then <["experiment" := v]> (heap_get h l)
    else heap_get h l'.
Proof.
  unfold item_update, heap_get at 1. rewrite lookup_insert.
  destruct (decide (l = l')); reflexivity.
Qed.


(** Annotation leaves the objects that are not in the list alone. *)
Lemma annotate_untouched (uid : string) (idx : Z) (items : list nat) :
  forall (rank : Z) (h : gmap nat (gmap string value)) (l : nat),
    l ∉ items ->
    heap_get (annotate E self uid idx rank items h) l = heap_get h l.
Proof.
  induction items as [|item items IH]; intros rank h l Hl; [reflexivity|].
  apply not_elem_of_cons in Hl as [Hne Hl].
  simpl. rewrite IH by exact Hl. rewrite heap_get_item_update.
  destruct (decide (item = l)); congruence.
Qed.


(** When the references are pairwise distinct, the object at position [k]
    carries the stamp of rank [rank + k]. *)
Lemma annotate_stamp (uid : string) (idx : Z) (items : list nat) :
  forall (rank : Z) (h : gmap nat (gmap string value)) (k : nat) (l : nat),
    NoDup items ->
    items !! k = Some l ->
    stamp_of (annotate E self uid idx rank items h) l =
      Some (stamp_at E self uid idx (rank + Z.of_nat k)).
Proof.
  induction items as [|item items IH]; intros rank h k l Hnd Hk;
    [discriminate|].
  apply NoDup_cons in Hnd as [Hnotin Hnd].
  destruct k as [|k]; simpl in Hk.
  - injection Hk as ->. simpl. unfold stamp_of.
    rewrite annotate_untouched by exact Hnotin.
    rewrite heap_get_item_update, decide_True by reflexivity.
    rewrite lookup_insert_eq. unfold stamp_at.
    replace (rank + Z.of_nat 0) with rank by lia. reflexivity.
  - simpl. rewrite (IH (rank + 1) _ k l Hnd Hk).
    f_equal. f_equal. lia.
Qed.

Lemma annotate_with_put_item
    (p : TelemetrySnapshot -> list TelemetrySnapshot -> option exn)
    (uid : string) (idx : Z) (items : list nat) :
  forall (rank : Z) (h : gmap nat (gmap string value)),
    annotate (with_put_item p E) self uid idx rank items h =
      annotate E self uid idx rank items h.
Proof.
  induction items as [|item items IH]; intros rank h; [reflexivity|].
  simpl. rewrite IH. reflexivity.
Qed.

(** An object that occurs in the list has a last position in it. *)
Lemma last_position_exists (items : list nat) (l : nat) :
  l ∈ items -> exists k, last_position items k l.
Proof.
  induction items as [|item items IH]; intros Hl.
  - apply elem_of_nil in Hl. contradiction.
  - destruct (decide (l ∈ items)) as [Hin|Hnotin].
    + destruct (IH Hin) as (k & Hk & Hlast). exists (S k). split; [exact Hk|].
      intros [|j] Hj; [lia|]. simpl. apply Hlast. lia.
    + apply elem_of_cons in Hl as [->|Hin]; [|contradiction].
      exists 0%nat. split; [reflexivity|].
      intros [|j] Hj; [lia|]. simpl. intros Hj'. apply Hnotin.
      apply list_elem_of_lookup. eauto.
Qed.

(** The stamp an object keeps is the one of its last position. *)
Lemma annotate_last_position (uid : string) (idx : Z) (items : list nat) :
  forall (rank : Z) (h : gmap nat (gmap string value)) (k : nat) (l : nat),
    last_position items k l ->
    stamp_of (annotate E self uid idx rank items h) l =
      Some (stamp_at E self uid idx (rank + Z.of_nat k)).
Proof.
  induction items as [|item items IH]; intros rank h k l [Hk Hlast];
    [discriminate|].
  destruct k as [|k]; simpl in Hk.
  - injection Hk as ->. simpl. unfold stamp_of.
    rewrite annotate_untouched.
    + rewrite heap_get_item_update, decide_True by reflexivity.
      rewrite lookup_insert_eq. unfold stamp_at.
      replace (rank + Z.of_nat 0) with rank by lia. reflexivity.
    + intros Hin. apply list_elem_of_lookup in Hin as [j Hj].
      apply (Hlast (S j)); [lia | exact Hj].
  - simpl. rewrite (IH (rank + 1) _ k l).
    + f_equal. f_equal. lia.
    + split; [exact Hk|]. intros j Hj. apply (Hlast (S j)). lia.
Qed.

Lemma last_position_lt (items : list nat) (k l : nat) :
  last_position items k l -> (k < length items)%nat.
Proof. intros [Hk _]. eapply lookup_lt_Some. exact Hk. Qed.

End Annotation.

(** ** Independence from the telemetry store *)

Section TelemetryStore.

Context (E : Env) (self : Identity).
Context (p : TelemetrySnapshot -> list TelemetrySnapshot -> option exn).

Lemma agree_refl (w : World) : agree w w.
Proof. repeat split. Qed.

Lemma py_int_with_put_item (v : value) :
  py_int (with_put_item p E) v = py_int E v.
Proof. destruct v; reflexivity. Qed.

Lemma read_counts_with_put_item (vs : list Variation) :
  read_counts (with_put_item p E) vs = read_counts E vs.
Proof.
  induction vs as [|v vs IH]; [reflexivity|].
  simpl. unfold read_count. rewrite !py_int_with_put_item, IH. reflexivity.
Qed.

Lemma beta_draws_with_put_item (ab : list (Z * Z)) :
  forall r, beta_draws (with_put_item p E) ab r = beta_draws E ab r.
Proof.
  induction ab as [|[a b] ab IH]; intros r; [reflexivity|].
  simpl. destruct (beta_sample E r a b) as [x r1]. rewrite IH. reflexivity.
Qed.

Lemma np_random_beta_with_put_item (a b : list Z) (w : World) :
  np_random_beta (with_put_item p E) a b w = np_random_beta E a b w.
Proof.
  unfold np_random_beta. rewrite beta_draws_with_put_item. reflexivity.
Qed.

(** [_log_experiment_data] returns whatever [put_item] does. *)
Lemma log_experiment_data_returns (exposures conversions : list Z)
    (theta : list Q) (w : World) :
  (_log_experiment_data E self exposures conversions theta w).1 = Ok tt.
Proof.
  unfold _log_experiment_data, try_except, bind, read_clock,
    log_table_put_item, log_record, modify.
  simpl.
  match goal with
  | |- context [put_item E ?i (log_table w)] =>
      destruct (put_item E i (log_table w)) as [e|]; simpl
  end.
  - destruct (is_ClientError E e); reflexivity.
  - reflexivity.
Qed.

(** The selection returns the same index whatever the store does, and
    leaves worlds that agree. *)
Lemma select_variation_index_with_put_item (w : World) :
  (_select_variation_index (with_put_item p E) self w).1 =
    (_select_variation_index E self w).1 /\
  agree (_select_variation_index (with_put_item p E) self w).2
        (_select_variation_index E self w).2.
Proof.
  rewrite !select_variation_index_run, read_counts_with_put_item.
  destruct (read_counts E (variations w)) as [[exposures conversions]|e];
    [|split; [reflexivity | apply agree_refl]].
  rewrite np_random_beta_with_put_item.
  destruct (np_random_beta E _ _ w) as [[theta|e] w1];
    [|split; [reflexivity | apply agree_refl]].
  destruct (log_attempt_returns (with_put_item p E) self exposures conversions
              theta w1) as (wa & -> & Ha).
  destruct (log_attempt_returns E self exposures conversions theta w1)
    as (wb & -> & Hb).
  simpl. split; [reflexivity|].
  destruct Ha as (Ha1 & Ha2 & Ha3 & Ha4 & Ha5 & Ha6 & Ha7).
  destruct Hb as (Hb1 & Hb2 & Hb3 & Hb4 & Hb5 & Hb6 & Hb7).
  unfold agree.
  rewrite Ha1, Ha2, Ha3, Ha4, Ha5, Ha6, Ha7, Hb1, Hb2, Hb3, Hb4, Hb5, Hb6, Hb7.
  repeat split.
Qed.

(** So does everything after the selection, from worlds that agree. *)
Lemma serve_with_put_item (uid : string) (current_item_id : option string)
    (item_list : option (list string)) (num_results : Z)
    (tracker : option Tracker) (filter_values context : option value)
    (timestamp : option datetime) (promotion : option value)
    (idx : Z) (wa wb : World) :
  agree wa wb ->
  (serve (with_put_item p E) self uid current_item_id item_list num_results
         tracker filter_values context timestamp promotion idx wa).1 =
    (serve E self uid current_item_id item_list num_results tracker
           filter_values context timestamp promotion idx wb).1 /\
  agree
    (serve (with_put_item p E) self uid current_item_id item_list num_results
           tracker filter_values context timestamp promotion idx wa).2
    (serve E self uid current_item_id item_list num_results tracker
           filter_values context timestamp promotion idx wb).2.
Proof.
  destruct wa as [vs r t h lt pa tc rc al], wb as [vs' r' t' h' lt' pa' tc' rc' al'].
  unfold agree. simpl. intros (<- & <- & <- & <- & <- & <- & <-).
  unfold serve. rewrite !increment_exposure_count_run. simpl.
  destruct (py_getitem vs idx) as [variation|e]; [|simpl; repeat split].
  rewrite py_int_with_put_item.
  destruct (py_int E _) as [count|e]; [|simpl; repeat split].
  simpl.
  destruct (py_getitem _ idx) as [variation'|e]; [|simpl; repeat split].
  destruct (resolver variation' _ h) as [[items|e] h1]; [|simpl; repeat split].
  unfold annotate_and_track. simpl. rewrite annotate_with_put_item.
  destruct tracker as [tr|]; [|simpl; repeat split].
  unfold exposure_event, epoch_millis, event_time, after_clock. simpl.
  destruct timestamp as [ts|]; simpl; destruct (tr _); simpl; repeat split.
Qed.

(** The whole request: same result, agreeing worlds. *)
Lemma get_items_with_put_item (user_id : option string)
    (current_item_id : option string) (item_list : option (list string))
    (num_results : Z) (tracker : option Tracker)
    (filter_values context : option value) (timestamp : option datetime)
    (promotion : option value) (w : World) :
  (get_items (with_put_item p E) self user_id current_item_id item_list
             num_results tracker filter_values context timestamp promotion
             w).1 =
    (get_items E self user_id current_item_id item_list num_results tracker
               filter_values context timestamp promotion w).1 /\
  agree
    (get_items (with_put_item p E) self user_id current_item_id item_list
               num_results tracker filter_values context timestamp promotion
               w).2
    (get_items E self user_id current_item_id item_list num_results tracker
               filter_values context timestamp promotion w).2.
Proof.
  destruct user_id as [uid|]; [|split; [reflexivity | apply agree_refl]].
  destruct (String.eqb uid "") eqn:Huid.
  { unfold get_items. rewrite Huid. split; [reflexivity | apply agree_refl]. }
  destruct (Z.of_nat (length (variations w)) <? 2) eqn:Hlen.
  { unfold get_items, bind, gets. rewrite Huid, Hlen.
    split; [reflexivity | apply agree_refl]. }
  apply String.eqb_neq in Huid. apply Z.ltb_ge in Hlen.
  rewrite !(get_items_run _ self uid) by (assumption || lia).
  destruct (select_variation_index_with_put_item w) as [Hres Hag].
  destruct (_select_variation_index (with_put_item p E) self w) as [ra wa].
  destruct (_select_variation_index E self w) as [rb wb].
  simpl in Hres, Hag. subst rb.
  destruct ra as [idx|e]; [|split; [reflexivity | exact Hag]].
  apply serve_with_put_item. exact Hag.
Qed.

End TelemetryStore.

(** ** With and without a tracker *)

Section Tracking.

Context (E : Env) (self : Identity).

(** A selection that returns has read the clock once. *)
Lemma select_variation_index_ticks (w w1 : World) (idx : Z) :
  _select_variation_index E self w = (Ok idx, w1) ->
  ticks w1 = S (ticks w).
Proof.
  rewrite select_variation_index_run.
  destruct (read_counts E (variations w)) as [[exposures conversions]|e];
    [|discriminate].
  unfold np_random_beta.
  destruct (forallb _ _); [|discriminate].
  destruct (forallb _ _); [|discriminate].
  destruct (beta_draws E _ (rng w)) as [theta r].
  destruct (log_attempt_returns E self exposures conversions theta (set_rng r w))
    as (w2 & -> & _ & _ & Ht & _).
  simpl. intros H. injection H as _ <-. exact Ht.
Qed.

(** The world a request that returned items has left, field by field. *)
Lemma get_items_ok_fields (user_id : option string)
    (current_item_id : option string) (item_list : option (list string))
    (num_results : Z) (tracker : option Tracker)
    (filter_values context : option value) (timestamp : option datetime)
    (promotion : option value) (w w' : World) (items : list nat) :
  get_items E self user_id current_item_id item_list num_results tracker
            filter_values context timestamp promotion w = (Ok items, w') ->
  exists (uid : string) (i : nat) (v : Variation)
         (h : gmap nat (gmap string value)),
    user_id = Some uid /\ uid <> "" /\ (2 <= length (variations w))%nat /\
    (_select_variation_index E self w).1 = Ok (Z.of_nat i) /\
    variations w !! i = Some v /\
    resolver v (resolve_params_of uid current_item_id item_list num_results
                                  filter_values context promotion) (heap w) =
      (Ok items, h) /\
    variations w' = count_exposure E i (variations w) /\
    heap w' = annotate E self uid (Z.of_nat i) 1 items h /\
    tracker_calls w' =
      tracker_calls w ++
        match tracker with
        | None => []
        | Some _ =>
            [exposure_event E self uid (Z.of_nat i) (counted E v)
               match timestamp with
               | Some t => t
               | None => now E (S (ticks w))
               end]
        end /\
    resolver_calls w' =
      resolver_calls w ++
        [(Z.of_nat i,
          resolve_params_of uid current_item_id item_list num_results
                            filter_values context promotion)] /\
    exists item, put_attempts w' = put_attempts w ++ [item].
Proof.
  intros Hrun.
  apply get_items_ok_inv in Hrun
    as (uid & i & v & w1 & h & -> & Huid & Hlen & Hsel & Hv & Hres & Htrack).
  pose proof (select_variation_index_frame E self w) as Hframe.
  rewrite Hsel in Hframe. cbv zeta in Hframe. simpl in Hframe.
  destruct Hframe as (_ & _ & Htc & _).
  pose proof (select_variation_index_ticks w w1 _ Hsel) as Hticks.
  destruct (select_variation_index_attempt E self w w1 _ Hsel) as [item Hput].
  match type of Htrack with
  | annotate_and_track _ _ ?u ?x ?cv ?its ?tr ?ts ?wb = _ =>
      pose proof (annotate_and_track_fields E self u x cv its tr ts wb) as Hf
  end.
  cbv zeta in Hf. rewrite Htrack in Hf. simpl in Hf.
  destruct Hf as (Hheap & Hvars & _ & Hpa & _ & Hrc & Htcs & _).
  exists uid, i, v, h. rewrite Hsel.
  split; [reflexivity|]. split; [exact Huid|]. split; [exact Hlen|].
  split; [reflexivity|]. split; [exact Hv|]. split; [exact Hres|].
  split; [exact Hvars|]. split; [exact Hheap|].
  split; [|split; [exact Hrc | exists item; congruence]].
  rewrite Htcs, Htc. f_equal.
  destruct tracker as [tr|]; [|reflexivity].
  unfold event_time. simpl. rewrite Hticks. reflexivity.
Qed.

(** A request that returns items without a tracker behaves, with a tracker,
    the same up to the single [log_exposure] call: the same heap and
    variations, one event handed over, and the items returned or the
    tracker's exception raised according to what that call does. *)
Lemma get_items_tracker_comparison (user_id : option string)
    (current_item_id : option string) (item_list : option (list string))
    (num_results : Z) (filter_values context : option value)
    (timestamp : option datetime) (promotion : option value)
    (w w0 : World) (items : list nat) (tr : Tracker) :
  get_items E self user_id current_item_id item_list num_results None
            filter_values context timestamp promotion w = (Ok items, w0) ->
  exists event,
    let r := get_items E self user_id current_item_id item_list num_results
               (Some tr) filter_values context timestamp promotion w in
    tracker_calls w0 = tracker_calls w /\
    tracker_calls r.2 = tracker_calls w ++ [event] /\
    heap r.2 = heap w0 /\ variations r.2 = variations w0 /\
    r.1 = match tr event with
          | None => Ok items
          | Some e => Raise e
          end.
Proof.
  intros Hrun.
  pose proof (get_items_ok_fields _ _ _ _ _ _ _ _ _ _ _ _ Hrun)
    as (uid0 & i0 & v0 & h0 & Hu0 & _ & _ & _ & _ & _ & _ & _ & Htc0 & _).
  simpl in Htc0. rewrite app_nil_r in Htc0.
  apply get_items_ok_inv in Hrun
    as (uid & i & v & w1 & h & -> & Huid & Hlen & Hsel & Hv & Hres & Htrack).
  destruct (get_items_chosen E self uid current_item_id item_list num_results
              (Some tr) filter_values context timestamp promotion w w1 _
              Huid Hlen Hsel) as (i' & v' & Hi & Hv' & Hnf).
  apply Nat2Z.inj in Hi. subst i'. rewrite Hv in Hv'. injection Hv' as <-.
  cbv zeta in Hnf. cbv zeta in Hres. rewrite Hres in Hnf.
  match type of Htrack with
  | annotate_and_track _ _ ?u ?x ?cv ?its None ?ts ?wb = _ =>
      pose proof (annotate_and_track_fields E self u x cv its None ts wb) as Hf0;
      pose proof (annotate_and_track_fields E self u x cv its (Some tr) ts wb)
        as Hf1;
      exists (exposure_event E self u x cv (event_time E ts wb))
  end.
  cbv zeta in Hf0, Hf1. rewrite Htrack in Hf0. rewrite <- Hnf in Hf1.
  simpl in Hf0.
  cbn [tracker_calls heap variations set_heap set_resolver_calls
       set_variations set_app_log] in Hf1.
  destruct Hf0 as (Hheap0 & Hvars0 & _ & _ & _ & _ & Htcs0 & _).
  destruct Hf1 as (Hheap1 & Hvars1 & _ & _ & _ & _ & Htcs1 & Hr1).
  cbv zeta. rewrite app_nil_r in Htcs0.
  split; [exact Htc0|].
  split; [rewrite Htcs1, <- Htcs0, Htc0; reflexivity|].
  split; [congruence|]. split; [congruence | exact Hr1].
Qed.

End Tracking.

(** ** Properties of [get_items] and [_select_variation_index] *)

Lemma run_eq {A} (r : result A * World) (a : A) :
  r.1 = Ok a -> r = (Ok a, r.2).
Proof. destruct r as [x w]. simpl. intros ->. reflexivity. Qed.

Lemma with_put_item_same (E : Env) : with_put_item (put_item E) E = E.
Proof. destruct E. reflexivity. Qed.




Section Claims.

Context (E : Env) (self : Identity).
Context (current_item_id : option string) (item_list : option (list string))
        (num_results : Z) (filter_values context promotion : option value).

Local Abbreviation request user_id tracker timestamp :=
  (get_items E self user_id current_item_id item_list num_results tracker
             filter_values context timestamp promotion).

Local Abbreviation params uid :=
  (resolve_params_of uid current_item_id item_list num_results filter_values
                     context promotion).

(** C1 (as amended). With a tracker supplied, an exception raised by
    [tracker.log_exposure(event)] is not caught: it propagates out of
    [get_items] unchanged.  By then the items have been annotated in place
    and the exposure counted, exactly as in the request without a tracker,
    but [get_items] returns the item sequence only when [log_exposure]
    returns. *)
Theorem get_items_tracker_exception_propagates (user_id : option string)
    (tr : Tracker) (timestamp : option datetime) (w w0 : World)
    (items : list nat) :
  request user_id None timestamp w = (Ok items, w0) ->
  exists event,
    tracker_calls (request user_id (Some tr) timestamp w).2 =
      tracker_calls w ++ [event] /\
    heap (request user_id (Some tr) timestamp w).2 = heap w0 /\
    variations (request user_id (Some tr) timestamp w).2 = variations w0 /\
    (forall e, tr event = Some e ->
               (request user_id (Some tr) timestamp w).1 = Raise e) /\
    (tr event = None ->
     (request user_id (Some tr) timestamp w).1 = Ok items).
Proof.
  intros Hrun.
  destruct (get_items_tracker_comparison E self _ _ _ _ _ _ _ _ _ _ _ tr Hrun)
    as (event & _ & Htc & Hheap & Hvars & Hres).
  exists event. cbv zeta in Htc, Hheap, Hvars, Hres.
  split; [exact Htc|]. split; [exact Hheap|]. split; [exact Hvars|].
  split.
  - intros e He. rewrite Hres, He. reflexivity.
  - intros He. rewrite Hres, He. reflexivity.
Qed.

(** C3. A request with an empty or absent [user_id], or against an
    experiment with fewer than two variations, raises its validation error
    and leaves the world exactly as it found it: nothing is sampled, no
    snapshot is written, no exposure is counted and no resolver is called.
    The error is [Exception('user_id is required')] when the user id is
    missing and [Exception('Experiment <id> does not have 2 or more
    variations')] otherwise. *)
Theorem get_items_validation_fails_fast (user_id : option string)
    (tracker : option Tracker) (timestamp : option datetime) (w : World) :
  falsy_user_id user_id = true \/ (length (variations w) < 2)%nat ->
  exists e,
    request user_id tracker timestamp w = (Raise e, w) /\
    (falsy_user_id user_id = true -> e = Exception "user_id is required") /\
    (falsy_user_id user_id = false ->
     e = Exception ("Experiment " +:+ self_id self
                      +:+ " does not have 2 or more variations")).
Proof.
  intros H. unfold get_items. destruct user_id as [uid|]; simpl in *.
  - destruct (String.eqb uid "") eqn:Huid.
    + eexists. split; [reflexivity|]. split; [reflexivity | discriminate].
    + destruct H as [H|H]; [discriminate|].
      unfold bind, gets, raise.
      assert (Hlt : (Z.of_nat (length (variations w)) <? 2) = true)
        by (apply Z.ltb_lt; lia).
      rewrite Hlt.
      eexists. split; [reflexivity|]. split; [discriminate | reflexivity].
  - eexists. split; [reflexivity|]. split; [reflexivity | discriminate].
Qed.

(** C4 (as amended). When a request returns [n] items that are pairwise
    distinct objects, the items are the resolver's output in its order, the
    item at position [k] (from 0) carries under ['experiment'] the stamp
    holding the experiment's id, feature, name and type, the chosen
    variation index, the rank [k + 1] and the correlation id computed from
    (user_id, variation_index, rank), and the correlation ids of two
    different positions differ. *)
Theorem get_items_stamps_distinct_items (user_id : option string)
    (tracker : option Tracker) (timestamp : option datetime) (w w' : World)
    (items : list nat) :
  request user_id tracker timestamp w = (Ok items, w') ->
  NoDup items ->
  exists (uid : string) (i : nat) (v : Variation)
         (h : gmap nat (gmap string value)),
    user_id = Some uid /\
    (_select_variation_index E self w).1 = Ok (Z.of_nat i) /\
    variations w !! i = Some v /\
    resolver v (params uid) (heap w) = (Ok items, h) /\
    (forall (k : nat) (l : nat),
        items !! k = Some l ->
        stamp_of (heap w') l =
          Some {| stamp_id := self_id self;
                  stamp_feature := self_feature self;
                  stamp_name := self_name self;
                  stamp_type := self_type self;
                  variationIndex := Z.of_nat i;
                  resultRank := Z.of_nat k + 1;
                  correlationId :=
                    _create_correlation_id E self uid (Z.of_nat i)
                                           (Z.of_nat k + 1) |}) /\
    (forall (k1 k2 l1 l2 : nat) (st1 st2 : ItemExperimentStamp),
        k1 <> k2 ->
        items !! k1 = Some l1 -> items !! k2 = Some l2 ->
        stamp_of (heap w') l1 = Some st1 ->
        stamp_of (heap w') l2 = Some st2 ->
        correlationId st1 <> correlationId st2).
Proof.
  intros Hrun Hnd.
  apply get_items_ok_fields in Hrun
    as (uid & i & v & h & -> & _ & _ & Hsel & Hv & Hres & _ & Hheap & _).
  assert (Hstamp : forall (k l : nat),
             items !! k = Some l ->
             stamp_of (heap w') l =
               Some (stamp_at E self uid (Z.of_nat i) (Z.of_nat k + 1))).
  { intros k l Hk. rewrite Hheap.
    rewrite (annotate_stamp E self uid (Z.of_nat i) items 1 h k l Hnd Hk).
    f_equal. f_equal. lia. }
  exists uid, i, v, h.
  split; [reflexivity|]. split; [exact Hsel|]. split; [exact Hv|].
  split; [exact Hres|]. split.
  - intros k l Hk. rewrite (Hstamp k l Hk). reflexivity.
  - intros k1 k2 l1 l2 st1 st2 Hne H1 H2 Hs1 Hs2.
    rewrite (Hstamp k1 l1 H1) in Hs1. rewrite (Hstamp k2 l2 H2) in Hs2.
    injection Hs1 as <-. injection Hs2 as <-. simpl.
    apply create_id_distinct. lia.
Qed.

(** C5. Whatever [put_item] does, [_log_experiment_data] returns, and the
    behaviour of the store changes neither the index
    [_select_variation_index] returns, nor what [get_items] returns or
    raises, nor the items: with the store replaced by any other one, the
    results are equal and so are the heap, the variations and the tracker
    calls. *)
Theorem telemetry_write_failure_is_discarded
    (p : TelemetrySnapshot -> list TelemetrySnapshot -> option exn)
    (user_id : option string) (tracker : option Tracker)
    (timestamp : option datetime) (w : World) :
  (forall exposures conversions theta w0,
      (_log_experiment_data (with_put_item p E) self exposures conversions
                            theta w0).1 = Ok tt) /\
  (_select_variation_index (with_put_item p E) self w).1 =
    (_select_variation_index E self w).1 /\
  (get_items (with_put_item p E) self user_id current_item_id item_list
             num_results tracker filter_values context timestamp promotion
             w).1 = (request user_id tracker timestamp w).1 /\
  heap (get_items (with_put_item p E) self user_id current_item_id item_list
                  num_results tracker filter_values context timestamp
                  promotion w).2 =
    heap (request user_id tracker timestamp w).2 /\
  variations (get_items (with_put_item p E) self user_id current_item_id
                        item_list num_results tracker filter_values context
                        timestamp promotion w).2 =
    variations (request user_id tracker timestamp w).2 /\
  tracker_calls (get_items (with_put_item p E) self user_id current_item_id
                           item_list num_results tracker filter_values
                           context timestamp promotion w).2 =
    tracker_calls (request user_id tracker timestamp w).2.
Proof.
  split; [intros; apply log_experiment_data_returns|].
  split; [apply select_variation_index_with_put_item|].
  destruct (get_items_with_put_item E self p user_id current_item_id item_list
              num_results tracker filter_values context timestamp promotion w)
    as (Hres & Hvars & _ & _ & Hheap & _ & Htc & _).
  auto.
Qed.

(** C6. A request that returns items with a tracker supplied has handed
    exactly one event to [tracker.log_exposure]: its type is
    ["Experiment Exposure"], its timestamp is the supplied timestamp, else
    the time the clock gives at that point, in integer milliseconds since
    the epoch, and its attributes carry the user id, the experiment's
    identity, the chosen variation index and the chosen variation's
    config. *)
Theorem get_items_emits_one_exposure_event (user_id : option string)
    (tr : Tracker) (timestamp : option datetime) (w w' : World)
    (items : list nat) :
  request user_id (Some tr) timestamp w = (Ok items, w') ->
  exists (uid : string) (i : nat) (variation : Variation),
    user_id = Some uid /\
    (_select_variation_index E self w).1 = Ok (Z.of_nat i) /\
    variations w' !! i = Some variation /\
    tracker_calls w' =
      tracker_calls w ++
        [ {| event_type := "Experiment Exposure";
             event_timestamp :=
               epoch_millis E match timestamp with
                              | Some t => t
                              | None => now E (S (ticks w))
                              end;
             attributes :=
               {| attr_user_id := uid;
                  attr_experiment := self;
                  attr_variation_index := Z.of_nat i;
                  attr_variation := config variation |} |} ].
Proof.
  intros Hrun.
  apply get_items_ok_fields in Hrun
    as (uid & i & v & h & -> & _ & _ & Hsel & Hv & _ & Hvars & _ & Htc & _).
  exists uid, i, (counted E v).
  split; [reflexivity|]. split; [exact Hsel|]. split.
  - rewrite Hvars. apply count_exposure_lookup. exact Hv.
  - exact Htc.
Qed.

(** C8. A request that returns items with no tracker makes no
    [log_exposure] call.  The items are annotated all the same: each
    returned object carries the stamp of the (last) position it occupies,
    with rank [k + 1] and the correlation id of that rank.  The chosen
    variation's exposure is counted once, and the items, their annotation
    and the variations are those of the same request made with a tracker
    whose call returns, which differs only by the one event it hands
    over. *)
Theorem get_items_without_tracker (timestamp : option datetime)
    (user_id : option string) (w w' : World) (items : list nat) :
  request user_id None timestamp w = (Ok items, w') ->
  tracker_calls w' = tracker_calls w /\
  (exists (uid : string) (i : nat) (v : Variation),
      user_id = Some uid /\
      (_select_variation_index E self w).1 = Ok (Z.of_nat i) /\
      variations w !! i = Some v /\
      variations w' = count_exposure E i (variations w) /\
      variations w' !! i = Some (counted E v) /\
      count_of E (config (counted E v)) "exposures" =
        count_of E (config v) "exposures" + 1 /\
      forall (k : nat) (l : nat),
        last_position items k l ->
        stamp_of (heap w') l =
          Some {| stamp_id := self_id self;
                  stamp_feature := self_feature self;
                  stamp_name := self_name self;
                  stamp_type := self_type self;
                  variationIndex := Z.of_nat i;
                  resultRank := Z.of_nat k + 1;
                  correlationId :=
                    _create_correlation_id E self uid (Z.of_nat i)
                                           (Z.of_nat k + 1) |}) /\
  (forall tr : Tracker,
      (forall event, tr event = None) ->
      (request user_id (Some tr) timestamp w).1 = Ok items /\
      heap (request user_id (Some tr) timestamp w).2 = heap w' /\
      variations (request user_id (Some tr) timestamp w).2 = variations w' /\
      exists event,
        tracker_calls (request user_id (Some tr) timestamp w).2 =
          tracker_calls w ++ [event]).
Proof.
  intros Hrun. split; [|split].
  - apply get_items_ok_fields in Hrun
      as (uid & i & v & h & _ & _ & _ & _ & _ & _ & _ & _ & Htc & _).
    simpl in Htc. rewrite app_nil_r in Htc. exact Htc.
  - apply get_items_ok_fields in Hrun
      as (uid & i & v & h & -> & _ & _ & Hsel & Hv & _ & Hvars & Hheap & _).
    exists uid, i, v. split; [reflexivity|].
    split; [exact Hsel|]. split; [exact Hv|].
    split; [exact Hvars|]. split; [|split].
    + rewrite Hvars. apply count_exposure_lookup. exact Hv.
    + apply count_of_counted.
    + intros k l Hlast. rewrite Hheap.
      rewrite (annotate_last_position E self uid (Z.of_nat i) items 1 h k l
                 Hlast).
      unfold stamp_at. f_equal. f_equal; [lia | f_equal; lia].
  - intros tr Hquiet.
    destruct (get_items_tracker_comparison E self _ _ _ _ _ _ _ _ _ _ _ tr Hrun)
      as (event & _ & Htc & Hheap & Hvars & Hres).
    cbv zeta in Htc, Hheap, Hvars, Hres.
    rewrite Hquiet in Hres. eauto.
Qed.

(** C9. When a request has passed validation, the selection has returned
    and the chosen variation's resolver raises, [get_items] raises that very
    exception.  The world it leaves has the chosen variation's exposure
    counted and the snapshot write attempted; no event is handed to the
    tracker. *)
Theorem get_items_resolver_exception_propagates (uid : string)
    (tracker : option Tracker) (timestamp : option datetime)
    (w w1 : World) (idx : Z) (v : Variation) (e : exn)
    (h : gmap nat (gmap string value)) :
  uid <> "" ->
  (2 <= length (variations w))%nat ->
  _select_variation_index E self w = (Ok idx, w1) ->
  variations w !! Z.to_nat idx = Some v ->
  resolver v (params uid) (heap w) = (Raise e, h) ->
  exists w',
    request (Some uid) tracker timestamp w = (Raise e, w') /\
    variations w' = count_exposure E (Z.to_nat idx) (variations w) /\
    variations w' !! Z.to_nat idx = Some (counted E v) /\
    count_of E (config (counted E v)) "exposures" =
      count_of E (config v) "exposures" + 1 /\
    (exists item, put_attempts w' = put_attempts w ++ [item]) /\
    tracker_calls w' = tracker_calls w.
Proof.
  intros Huid Hlen Hsel Hv Hres.
  destruct (get_items_chosen E self uid current_item_id item_list num_results
              tracker filter_values context timestamp promotion w w1 idx
              Huid Hlen Hsel) as (i & v' & -> & Hv' & Hnf).
  rewrite Nat2Z.id in *. rewrite Hv in Hv'. injection Hv' as <-.
  cbv zeta in Hnf. rewrite Hres in Hnf.
  destruct (select_variation_index_attempt E self w w1 _ Hsel) as [item Hput].
  pose proof (select_variation_index_frame E self w) as Hframe.
  rewrite Hsel in Hframe. cbv zeta in Hframe. simpl in Hframe.
  destruct Hframe as (_ & _ & Htc & _).
  eexists. split; [exact Hnf|]. simpl.
  split; [reflexivity|].
  split; [apply count_exposure_lookup; exact Hv|].
  split; [apply count_of_counted|].
  split; [exists item; exact Hput | exact Htc].
Qed.


End Claims.

(** The sequential reading of the exposure ledger: a request that returns
    items has added exactly one to the exposures of the variation it chose
    and has left the other variations as they were. *)
Lemma get_items_counts_one_exposure (E : Env) (self : Identity)
    (user_id : option string) (current_item_id : option string)
    (item_list : option (list string)) (num_results : Z)
    (tracker : option Tracker) (filter_values context : option value)
    (timestamp : option datetime) (promotion : option value)
    (w w' : World) (items : list nat) :
  get_items E self user_id current_item_id item_list num_results tracker
            filter_values context timestamp promotion w = (Ok items, w') ->
  exists (i : nat) (v v' : Variation),
    (_select_variation_index E self w).1 = Ok (Z.of_nat i) /\
    variations w !! i = Some v /\ variations w' !! i = Some v' /\
    count_of E (config v') "exposures" = count_of E (config v) "exposures" + 1 /\
    length (variations w') = length (variations w) /\
    forall j : nat, j <> i -> variations w' !! j = variations w !! j.
Proof.
  intros Hrun.
  apply get_items_ok_fields in Hrun
    as (uid & i & v & h & _ & _ & _ & Hsel & Hv & _ & Hvars & _).
  exists i, v, (counted E v). rewrite Hvars.
  split; [exact Hsel|]. split; [exact Hv|].
  split; [apply count_exposure_lookup; exact Hv|].
  split; [apply count_of_counted|].
  split; [apply length_count_exposure|].
  intros j Hj. apply count_exposure_other. congruence.
Qed.

(** *** The properties on concrete requests *)

(** C1, as stated, fails: the request that returns three items without a
    tracker raises the tracker's exception when the tracker's call fails. *)
Lemma get_items_tracker_failure_aborts_request :
  (Demo.call Demo.env (Some "u1") None None
     (Demo.world_ab Demo.xyz Demo.xyz)).1 = Ok [0%nat; 1%nat; 2%nat] /\
  (Demo.call Demo.env (Some "u1") (Some Demo.failing_tracker) None
     (Demo.world_ab Demo.xyz Demo.xyz)).1 =
    Raise (PyExn "ConnectionError" "tracker unreachable").
Proof. split; vm_compute; reflexivity. Qed.

Lemma get_items_tracker_exception_propagates_witness :
  (Demo.call Demo.env (Some "u1") (Some Demo.failing_tracker) None
     (Demo.world_ab Demo.xyz Demo.xyz)).1 =
    Raise (PyExn "ConnectionError" "tracker unreachable").
Proof.
  destruct (get_items_tracker_exception_propagates Demo.env Demo.self
              None None 3 None None None (Some "u1") Demo.failing_tracker None
              (Demo.world_ab Demo.xyz Demo.xyz)
              (Demo.call Demo.env (Some "u1") None None
                 (Demo.world_ab Demo.xyz Demo.xyz)).2
              [0%nat; 1%nat; 2%nat])
    as (event & _ & _ & _ & Hraise & _).
  - apply (run_eq (Demo.call Demo.env (Some "u1") None None
                     (Demo.world_ab Demo.xyz Demo.xyz))).
    vm_compute. reflexivity.
  - apply Hraise. reflexivity.
Defined.

Lemma get_items_validation_fails_fast_witness :
  Demo.call Demo.env (Some "u1") (Some Demo.quiet_tracker) None
    (Demo.world_of [ {| config := Demo.counts 3 1; resolver := Demo.xyz |} ]) =
  (Raise (Exception "Experiment exp-1 does not have 2 or more variations"),
   Demo.world_of [ {| config := Demo.counts 3 1; resolver := Demo.xyz |} ]).
Proof.
  destruct (get_items_validation_fails_fast Demo.env Demo.self
              None None 3 None None None (Some "u1")
              (Some Demo.quiet_tracker) None
              (Demo.world_of
                 [ {| config := Demo.counts 3 1; resolver := Demo.xyz |} ]))
    as (e & Hrun & _ & Hfew).
  - right. simpl. lia.
  - unfold Demo.call. rewrite Hrun, (Hfew eq_refl). reflexivity.
Defined.

(** C4, as stated, fails: a resolver that returns the same dictionary at
    two positions gets it back stamped once, with rank 2 at both
    positions. *)
Lemma get_items_aliased_items_share_one_stamp :
  let r := Demo.call Demo.env (Some "u1") None None
             (Demo.world_ab Demo.twice_x Demo.twice_x) in
  r.1 = Ok [0%nat; 0%nat] /\
  map (fun l => resultRank <$> stamp_of (heap r.2) l) [0%nat; 0%nat] =
    [Some 2; Some 2] /\
  map (fun l => correlationId <$> stamp_of (heap r.2) l) [0%nat; 0%nat] =
    [Some "exp-1~u1~0~2"; Some "exp-1~u1~0~2"].
Proof. cbv zeta. repeat split; vm_compute; reflexivity. Qed.

Lemma get_items_stamps_distinct_items_witness :
  map (fun l =>
         resultRank <$>
           stamp_of (heap (Demo.call Demo.env (Some "u1") None None
                             (Demo.world_ab Demo.xyz Demo.xyz)).2) l)
      [0%nat; 1%nat; 2%nat] = [Some 1; Some 2; Some 3].
Proof.
  destruct (get_items_stamps_distinct_items Demo.env Demo.self
              None None 3 None None None (Some "u1") None None
              (Demo.world_ab Demo.xyz Demo.xyz)
              (Demo.call Demo.env (Some "u1") None None
                 (Demo.world_ab Demo.xyz Demo.xyz)).2
              [0%nat; 1%nat; 2%nat])
    as (uid & i & v & h & _ & _ & _ & _ & Hstamp & _).
  - apply (run_eq (Demo.call Demo.env (Some "u1") None None
                     (Demo.world_ab Demo.xyz Demo.xyz))).
    vm_compute. reflexivity.
  - apply (bool_decide_unpack (NoDup [0%nat; 1%nat; 2%nat])).
    vm_compute. exact I.
  - cbn [map].
    rewrite (Hstamp 0%nat 0%nat eq_refl), (Hstamp 1%nat 1%nat eq_refl),
      (Hstamp 2%nat 2%nat eq_refl).
    reflexivity.
Defined.

Lemma get_items_emits_one_exposure_event_witness :
  map event_timestamp
      (tracker_calls
         (Demo.call Demo.env (Some "u1") (Some Demo.quiet_tracker) None
            (Demo.world_ab Demo.xyz Demo.xyz)).2) = [1700000001000].
Proof.
  destruct (get_items_emits_one_exposure_event Demo.env Demo.self
              None None 3 None None None (Some "u1") Demo.quiet_tracker None
              (Demo.world_ab Demo.xyz Demo.xyz)
              (Demo.call Demo.env (Some "u1") (Some Demo.quiet_tracker) None
                 (Demo.world_ab Demo.xyz Demo.xyz)).2
              [0%nat; 1%nat; 2%nat])
    as (uid & i & v & _ & _ & _ & Hcalls).
  - apply (run_eq (Demo.call Demo.env (Some "u1") (Some Demo.quiet_tracker)
                     None (Demo.world_ab Demo.xyz Demo.xyz))).
    vm_compute. reflexivity.
  - rewrite Hcalls. vm_compute. reflexivity.
Defined.

Lemma get_items_without_tracker_witness :
  tracker_calls
    (Demo.call Demo.env (Some "u1") None None
       (Demo.world_ab Demo.xyz Demo.xyz)).2 = [].
Proof.
  destruct (get_items_without_tracker Demo.env Demo.self
              None None 3 None None None None (Some "u1")
              (Demo.world_ab Demo.xyz Demo.xyz)
              (Demo.call Demo.env (Some "u1") None None
                 (Demo.world_ab Demo.xyz Demo.xyz)).2
              [0%nat; 1%nat; 2%nat])
    as (Hcalls & _).
  - apply (run_eq (Demo.call Demo.env (Some "u1") None None
                     (Demo.world_ab Demo.xyz Demo.xyz))).
    vm_compute. reflexivity.
  - rewrite Hcalls. reflexivity.
Defined.

Lemma get_items_resolver_exception_propagates_witness :
  (Demo.call Demo.env (Some "u1") None None
     (Demo.world_ab (Demo.raising_resolver (PyExn "TimeoutError" "resolver"))
                    Demo.xyz)).1 =
    Raise (PyExn "TimeoutError" "resolver").
Proof.
  destruct (get_items_resolver_exception_propagates Demo.env Demo.self
              None None 3 None None None "u1" None None
              (Demo.world_ab
                 (Demo.raising_resolver (PyExn "TimeoutError" "resolver"))
                 Demo.xyz)
              (_select_variation_index Demo.env Demo.self
                 (Demo.world_ab
                    (Demo.raising_resolver (PyExn "TimeoutError" "resolver"))
                    Demo.xyz)).2
              0
              {| config := Demo.counts 10 9;
                 resolver :=
                   Demo.raising_resolver (PyExn "TimeoutError" "resolver") |}
              (PyExn "TimeoutError" "resolver") ∅)
    as (w' & Hrun & _).
  - discriminate.
  - simpl. lia.
  - apply (run_eq (_select_variation_index Demo.env Demo.self
                     (Demo.world_ab
                        (Demo.raising_resolver
                           (PyExn "TimeoutError" "resolver"))
                        Demo.xyz))).
    vm_compute. reflexivity.
  - reflexivity.
  - reflexivity.
  - unfold Demo.call. rewrite Hrun. reflexivity.
Defined.


(** ** Further properties of the selection *)

Section SelectionFacts.

Context (E : Env) (self : Identity).

Lemma read_counts_readable (vs : list Variation) :
  counts_readable E vs = true ->
  read_counts E vs = store_counts (exposures_of E vs) (conversions_of E vs).
Proof.
  induction vs as [|v vs IH]; [reflexivity|].
  unfold counts_readable. simpl. intros H.
  apply andb_prop in H as [Hv Hvs]. apply andb_prop in Hv as [Hex Hcv].
  unfold readable_count in Hex, Hcv. unfold read_count, count_of.
  destruct (py_int E (dict_get (config v) "exposures" (VInt 0))) as [ex|];
    [|discriminate].
  destruct (py_int E (dict_get (config v) "conversions" (VInt 0))) as [cv|];
    [|discriminate].
  destruct (float_of_int ex); [|reflexivity].
  destruct (float_of_int cv); [|reflexivity].
  rewrite (IH Hvs). reflexivity.
Qed.

Lemma storable_read (vs : list Variation) (k : nat) (v : Variation) :
  counts_storable E vs = true ->
  vs !! k = Some v ->
  read_count E (config v) "exposures" =
    Ok (float_count E (config v) "exposures") /\
  read_count E (config v) "conversions" =
    Ok (float_count E (config v) "conversions").
Proof.
  unfold counts_storable. intros H Hk. rewrite forallb_forall in H.
  assert (Hv : reads_ok E v = true).
  { apply H. apply list_elem_of_In. apply list_elem_of_lookup. eauto. }
  unfold reads_ok, storable_count in Hv. unfold float_count.
  destruct (read_count E (config v) "exposures"); [|discriminate].
  destruct (read_count E (config v) "conversions"); [|discriminate].
  split; reflexivity.
Qed.

(** The float stored for an integer found in the config. *)
Lemma read_count_stored_int (c : gmap string value) (k : string) (z x : Z) :
  c !! k = Some (VInt z) ->
  read_count E c k = Ok x ->
  x = round_binary64 z /\ Z.abs (round_binary64 z) < 2 ^ 1024.
Proof.
  intros Hk. unfold read_count, dict_get, float_of_int. rewrite Hk. simpl.
  destruct (2 ^ 1024 <=? Z.abs (round_binary64 z)) eqn:Hb; [discriminate|].
  apply Z.leb_gt in Hb. intros H. injection H as <-. auto.
Qed.

(** When some assignment raises, the loop raises the exception of the first
    one that does, in variation order, exposures before conversions. *)
Lemma read_counts_first_failure (vs : list Variation) :
  counts_storable E vs = false ->
  exists (e : exn) (i : nat) (v : Variation),
    vs !! i = Some v /\
    (forall (j : nat) (u : Variation),
        (j < i)%nat -> vs !! j = Some u -> reads_ok E u = true) /\
    first_failed_read E v e /\
    read_counts E vs = Raise e.
Proof.
  induction vs as [|v vs IH]; [discriminate|].
  unfold counts_storable. simpl.
  destruct (reads_ok E v) eqn:Hv.
  - simpl. intros H. destruct (IH H) as (e & i & u & Hi & Hbefore & Hfail & Hrc).
    exists e, (S i), u. split; [exact Hi|]. split; [|split; [exact Hfail|]].
    + intros [|j] u' Hj Hu'.
      * injection Hu' as <-. exact Hv.
      * apply (Hbefore j); [lia | exact Hu'].
    + unfold reads_ok, storable_count in Hv.
      destruct (read_count E (config v) "exposures"); [|discriminate].
      destruct (read_count E (config v) "conversions"); [|discriminate].
      rewrite Hrc. reflexivity.
  - intros _. unfold reads_ok, storable_count in Hv.
    destruct (read_count E (config v) "exposures") as [ex|e] eqn:Hex.
    + destruct (read_count E (config v) "conversions") as [cv|e] eqn:Hcv;
        [discriminate|].
      exists e, 0%nat, v. split; [reflexivity|].
      split; [intros j u Hj; lia|]. split; [|reflexivity].
      right. unfold storable_count. rewrite Hex. auto.
    + exists e, 0%nat, v. split; [reflexivity|].
      split; [intros j u Hj; lia|]. split; [|reflexivity].
      left. exact Hex.
Qed.

(** The whole effect of the write attempt on the world. *)
Lemma log_attempt_world (exposures conversions : list Z) (theta : list Q)
    (w : World) :
  let item := snapshot_at E self exposures conversions theta w in
  let outcome := put_item E item (log_table w) in
  log_attempt E self exposures conversions theta w =
    (Ok tt,
     {| variations := variations w; rng := rng w; ticks := S (ticks w);
        heap := heap w;
        log_table := match outcome with
                     | None => log_table w ++ [item]
                     | Some _ => log_table w
                     end;
        put_attempts := put_attempts w ++ [item];
        tracker_calls := tracker_calls w;
        resolver_calls := resolver_calls w;
        app_log := app_log w ++ [snapshot_log_record E item outcome] |}).
Proof.
  cbv zeta.
  unfold log_attempt, _log_experiment_data, try_except, bind, read_clock,
    log_table_put_item, log_record, modify, snapshot_at, snapshot_log_record.
  simpl.
  match goal with
  | |- context [put_item E ?i (log_table w)] =>
      destruct (put_item E i (log_table w)) as [e|]; simpl
  end.
  - destruct (is_ClientError E e); reflexivity.
  - reflexivity.
Qed.

(** The world a selection that returns has left. *)
Lemma select_variation_index_ok_world (w w1 : World) (idx : Z) :
  _select_variation_index E self w = (Ok idx, w1) ->
  let item := selection_snapshot E self w in
  let outcome := put_item E item (log_table w) in
  counts_storable E (variations w) = true /\
  np_argmax (theta_of E w) = Ok idx /\
  w1 = {| variations := variations w;
          rng := (beta_draws E (posterior_params E (variations w)) (rng w)).2;
          ticks := S (ticks w);
          heap := heap w;
          log_table := match outcome with
                       | None => log_table w ++ [item]
                       | Some _ => log_table w
                       end;
          put_attempts := put_attempts w ++ [item];
          tracker_calls := tracker_calls w;
          resolver_calls := resolver_calls w;
          app_log := app_log w ++ [snapshot_log_record E item outcome] |}.
Proof.
  rewrite select_variation_index_run.
  destruct (read_counts E (variations w)) as [[exposures conversions]|e] eqn:Hrc;
    [|discriminate].
  pose proof (read_counts_ok_storable E _ _ _ Hrc) as Hst.
  apply read_counts_ok_eq in Hrc as [-> ->].
  unfold np_random_beta.
  destruct (forallb _ _); [|discriminate].
  destruct (forallb _ _); [|discriminate].
  fold (posterior_params E (variations w)).
  unfold selection_snapshot, theta_of.
  destruct (beta_draws E (posterior_params E (variations w)) (rng w))
    as [theta r].
  rewrite log_attempt_world. simpl.
  intros H. injection H as Harg <-.
  split; [exact Hst|]. split; [exact Harg | reflexivity].
Qed.

(** A selection over at least one variation that raises has raised before
    touching anything. *)
Lemma select_variation_index_raise_unchanged (w : World) (e : exn) :
  variations w <> [] ->
  (_select_variation_index E self w).1 = Raise e ->
  _select_variation_index E self w = (Raise e, w).
Proof.
  intros Hne. rewrite select_variation_index_run.
  destruct (read_counts E (variations w)) as [[exposures conversions]|e0] eqn:Hrc.
  - apply read_counts_ok_lookup in Hrc as (Hl1 & Hl2 & _).
    unfold np_random_beta.
    destruct (forallb _ _); [|simpl; congruence].
    destruct (forallb _ _); [|simpl; congruence].
    pose proof (length_beta_draws E
                  (zip (map float_add_1 conversions)
                       (map float_add_1 exposures)) (rng w)) as Hlen.
    destruct (beta_draws E _ (rng w)) as [theta r]. simpl in Hlen.
    rewrite length_zip, !length_map in Hlen.
    destruct theta as [|x theta].
    + destruct (variations w); [congruence | simpl in *; lia].
    + simpl. discriminate.
  - simpl. congruence.
Qed.

End SelectionFacts.

Section SelectionProperties.

Context (E : Env) (self : Identity).

(** X1. Over at least one variation, [_select_variation_index] fails
    cleanly: when it raises, no sample has been drawn, the clock has not
    been read, no snapshot has been written and nothing has been logged. *)
Theorem select_variation_index_fails_clean (w : World) (e : exn) :
  variations w <> [] ->
  (_select_variation_index E self w).1 = Raise e ->
  (_select_variation_index E self w).2 = w.
Proof.
  intros Hne Hraise.
  rewrite (select_variation_index_raise_unchanged E self w e Hne Hraise).
  reflexivity.
Qed.

(** X2. When the selection raises inside a validated request, [get_items]
    raises the same exception and has done nothing else: no exposure is
    counted, no resolver is called, no item is touched and no event is
    emitted. *)
Theorem get_items_selection_failure_propagates (uid : string)
    (current_item_id : option string) (item_list : option (list string))
    (num_results : Z) (tracker : option Tracker)
    (filter_values context : option value) (timestamp : option datetime)
    (promotion : option value) (w : World) (e : exn) :
  uid <> "" ->
  (2 <= length (variations w))%nat ->
  (_select_variation_index E self w).1 = Raise e ->
  get_items E self (Some uid) current_item_id item_list num_results tracker
            filter_values context timestamp promotion w = (Raise e, w).
Proof.
  intros Huid Hlen Hraise.
  rewrite (get_items_run E self uid) by assumption.
  rewrite (select_variation_index_raise_unchanged E self w e); [reflexivity | | exact Hraise].
  intros Hnil. rewrite Hnil in Hlen. simpl in Hlen. lia.
Qed.

(** X3. When every count has been stored in the arrays (each is accepted
    by [int] and fits a float) but some stored float is negative, the
    selection raises numpy's [ValueError] before any draw: ["a <= 0"] when
    some conversions count is negative, ["b <= 0"] when the conversions are
    fine and some exposures count is negative. *)
Theorem select_variation_index_rejects_negative_counts (w : World) :
  counts_storable E (variations w) = true ->
  ((exists v, v ∈ variations w /\
              float_count E (config v) "conversions" < 0) ->
   _select_variation_index E self w = (Raise (ValueError "a <= 0"), w)) /\
  ((forall v, v ∈ variations w ->
              0 <= float_count E (config v) "conversions") ->
   (exists v, v ∈ variations w /\
              float_count E (config v) "exposures" < 0) ->
   _select_variation_index E self w = (Raise (ValueError "b <= 0"), w)).
Proof.
  intros Hread. split.
  - intros (v & Hin & Hneg).
    rewrite select_variation_index_run, (read_counts_storable E _ Hread).
    unfold np_random_beta. rewrite shape_not_positive; [reflexivity|].
    exists (float_count E (config v) "conversions"). split; [|exact Hneg].
    unfold float_conversions_of. apply list_elem_of_fmap. eauto.
  - intros Hconv (v & Hin & Hneg).
    rewrite select_variation_index_run, (read_counts_storable E _ Hread).
    unfold np_random_beta. rewrite shape_positive.
    + rewrite shape_not_positive; [reflexivity|].
      exists (float_count E (config v) "exposures"). split; [|exact Hneg].
      unfold float_exposures_of. apply list_elem_of_fmap. eauto.
    + apply Forall_forall. intros x Hx. unfold float_conversions_of in Hx.
      apply list_elem_of_fmap in Hx as (v' & -> & Hv'). apply Hconv. exact Hv'.
Qed.

(** X4. When some count cannot be stored in the arrays, because [int]
    rejects what the config holds or because the integer does not fit a
    float, the selection raises the exception of the first assignment that
    fails, in variation order and exposures before conversions, and leaves
    the world untouched. *)
Theorem select_variation_index_unreadable_count (w : World) :
  counts_storable E (variations w) = false ->
  exists (e : exn) (i : nat) (v : Variation),
    _select_variation_index E self w = (Raise e, w) /\
    variations w !! i = Some v /\
    (forall (j : nat) (u : Variation),
        (j < i)%nat -> variations w !! j = Some u ->
        exists x y,
          read_count E (config u) "exposures" = Ok x /\
          read_count E (config u) "conversions" = Ok y) /\
    (read_count E (config v) "exposures" = Raise e \/
     ((exists x, read_count E (config v) "exposures" = Ok x) /\
      read_count E (config v) "conversions" = Raise e)).
Proof.
  intros H.
  destruct (read_counts_first_failure E _ H)
    as (e & i & v & Hi & Hbefore & Hfail & Hrc).
  exists e, i, v. split; [|split; [exact Hi|split]].
  - rewrite select_variation_index_run, Hrc. reflexivity.
  - intros j u Hj Hu. specialize (Hbefore j u Hj Hu).
    unfold reads_ok, storable_count in Hbefore.
    destruct (read_count E (config u) "exposures") as [x|]; [|discriminate].
    destruct (read_count E (config u) "conversions") as [y|]; [|discriminate].
    eauto.
  - destruct Hfail as [Hex|[Hex Hcv]]; [left; exact Hex|].
    right. split; [|exact Hcv]. unfold storable_count in Hex.
    destruct (read_count E (config v) "exposures") as [x|]; [eauto|discriminate].
Qed.

(** X5. On an experiment without variations the selection does not fail
    at once: it writes a snapshot with three empty vectors, draws nothing,
    and only then raises the [ValueError] of [np.argmax] on an empty
    sequence. *)
Theorem select_variation_index_empty_experiment (w : World) :
  variations w = [] ->
  (_select_variation_index E self w).1 =
    Raise (ValueError "attempt to get argmax of an empty sequence") /\
  put_attempts (_select_variation_index E self w).2 =
    put_attempts w ++
      [ {| snap_experiment_id := self_id self;
           snap_timestamp := isoformat E (utcnow E (ticks w));
           snap_exposures := [];
           snap_conversions := [];
           snap_theta := [] |} ] /\
  rng (_select_variation_index E self w).2 = rng w /\
  ticks (_select_variation_index E self w).2 = S (ticks w).
Proof.
  intros Hnil. rewrite select_variation_index_run, Hnil. simpl.
  unfold np_random_beta. simpl. rewrite log_attempt_world. simpl.
  repeat split.
Qed.

(** X6. A selection that returns has handed [put_item] exactly one
    snapshot, and that snapshot records the decision: the experiment's id,
    the clock's time, and for each variation, index-aligned, the floats the
    arrays hold for its exposures and conversions (for a stored integer, the
    nearest float) and its sample, the returned index being the argmax of
    the recorded samples. *)
Theorem select_variation_index_snapshot (w w1 : World) (idx : Z) :
  _select_variation_index E self w = (Ok idx, w1) ->
  exists exposures conversions : list Z,
    put_attempts w1 =
      put_attempts w ++
        [ {| snap_experiment_id := self_id self;
             snap_timestamp := isoformat E (utcnow E (ticks w));
             snap_exposures := exposures;
             snap_conversions := conversions;
             snap_theta := theta_of E w |} ] /\
    length exposures = length (variations w) /\
    length conversions = length (variations w) /\
    length (theta_of E w) = length (variations w) /\
    (forall (k : nat) (v : Variation),
        variations w !! k = Some v ->
        exists x y,
          exposures !! k = Some x /\ conversions !! k = Some y /\
          read_count E (config v) "exposures" = Ok x /\
          read_count E (config v) "conversions" = Ok y /\
          (forall z, config v !! "exposures" = Some (VInt z) ->
                     x = round_binary64 z) /\
          (forall z, config v !! "conversions" = Some (VInt z) ->
                     y = round_binary64 z)) /\
    np_argmax (theta_of E w) = Ok idx.
Proof.
  intros Hsel.
  apply select_variation_index_ok_world in Hsel as (Hst & Harg & ->). simpl.
  exists (float_exposures_of E (variations w)),
         (float_conversions_of E (variations w)).
  split; [reflexivity|].
  unfold float_exposures_of, float_conversions_of, theta_of.
  rewrite !length_map, length_beta_draws, length_posterior_params.
  split; [reflexivity|]. split; [reflexivity|]. split; [reflexivity|].
  split; [|exact Harg].
  intros k v Hk.
  destruct (storable_read E _ k v Hst Hk) as [Hex Hcv].
  exists (float_count E (config v) "exposures"),
         (float_count E (config v) "conversions").
  rewrite !list_lookup_fmap, Hk.
  split; [reflexivity|]. split; [reflexivity|].
  split; [exact Hex|]. split; [exact Hcv|]. split.
  - intros z Hz. apply (read_count_stored_int E _ _ z _ Hz Hex).
  - intros z Hz. apply (read_count_stored_int E _ _ z _ Hz Hcv).
Qed.

(** X7. What a selection that returns leaves in the table and in the
    application log depends on [put_item] alone: the row is stored and a
    debug record written when the write succeeds; the table is unchanged and
    one error record written when it fails, "Failed to log" when the
    exception is a [ClientError] (the class or one derived from it) and
    "Unexpected error" otherwise.  The handler of lines 113-114 never
    fires. *)
Theorem select_variation_index_log_outcome (w w1 : World) (idx : Z) :
  _select_variation_index E self w = (Ok idx, w1) ->
  let item := selection_snapshot E self w in
  match put_item E item (log_table w) with
  | None =>
      log_table w1 = log_table w ++ [item] /\
      app_log w1 = app_log w ++ [DebugLogged (snap_timestamp item)]
  | Some (PyExn cls msg) =>
      log_table w1 = log_table w /\
      app_log w1 =
        app_log w ++
          [if String.eqb cls "ClientError" || client_error_subclass E cls
           then ErrorFailedToLog (PyExn cls msg)
           else ErrorUnexpected (PyExn cls msg)]
  end /\
  forall e, ErrorLogging e ∈ app_log w1 -> ErrorLogging e ∈ app_log w.
Proof.
  intros Hsel.
  apply select_variation_index_ok_world in Hsel as (_ & _ & ->).
  cbv zeta. simpl.
  destruct (put_item E (selection_snapshot E self w) (log_table w))
    as [[cls msg]|]; simpl.
  - split; [split; reflexivity|].
    intros e He. apply elem_of_app in He as [He|He]; [exact He|].
    apply list_elem_of_singleton in He.
    destruct (String.eqb cls "ClientError" || client_error_subclass E cls);
      discriminate.
  - split; [split; reflexivity|].
    intros e He. apply elem_of_app in He as [He|He]; [exact He|].
    apply list_elem_of_singleton in He. discriminate.
Qed.

(** X8. The selection reads nothing but the generator and the two counts
    of each variation: two worlds with the same generator state and the same
    readable exposures and conversions give the same outcome, whatever their
    other config keys, resolvers, heaps, clocks and logs. *)
Theorem select_variation_index_reads_counts_only (wa wb : World) :
  counts_readable E (variations wa) = true ->
  counts_readable E (variations wb) = true ->
  exposures_of E (variations wa) = exposures_of E (variations wb) ->
  conversions_of E (variations wa) = conversions_of E (variations wb) ->
  rng wa = rng wb ->
  (_select_variation_index E self wa).1 =
    (_select_variation_index E self wb).1.
Proof.
  intros Ha Hb Hex Hcv Hrng.
  rewrite !select_variation_index_run.
  rewrite (read_counts_readable E _ Ha), (read_counts_readable E _ Hb).
  rewrite Hex, Hcv.
  destruct (store_counts _ _) as [[exposures conversions]|e]; [|reflexivity].
  unfold np_random_beta. rewrite Hrng.
  destruct (forallb _ _); [|reflexivity].
  destruct (forallb _ _); [|reflexivity].
  destruct (beta_draws E _ (rng wb)) as [theta r]. reflexivity.
Qed.

End SelectionProperties.

(** ** Further properties of the request path *)

Section RequestFacts.

Context (E : Env) (self : Identity).

(** The clock after the annotation and tracking step. *)
Lemma annotate_and_track_ticks (uid : string) (idx : Z) (v : Variation)
    (items : list nat) (tracker : option Tracker)
    (timestamp : option datetime) (w : World) :
  ticks (annotate_and_track E self uid idx v items tracker timestamp w).2 =
    match tracker, timestamp with
    | Some _, None => S (ticks w)
    | _, _ => ticks w
    end.
Proof.
  unfold annotate_and_track.
  destruct tracker as [tr|]; [|reflexivity].
  destruct timestamp as [t|]; simpl; destruct (tr _); reflexivity.
Qed.

(** The generator and the clock after a request that returned items. *)
Lemma get_items_ok_rng_ticks (user_id : option string)
    (current_item_id : option string) (item_list : option (list string))
    (num_results : Z) (tracker : option Tracker)
    (filter_values context : option value) (timestamp : option datetime)
    (promotion : option value) (w w' : World) (items : list nat) :
  get_items E self user_id current_item_id item_list num_results tracker
            filter_values context timestamp promotion w = (Ok items, w') ->
  rng w' = (beta_draws E (posterior_params E (variations w)) (rng w)).2 /\
  ticks w' = match tracker, timestamp with
             | Some _, None => S (S (ticks w))
             | _, _ => S (ticks w)
             end.
Proof.
  intros Hrun.
  apply get_items_ok_inv in Hrun
    as (uid & i & v & w1 & h & -> & Huid & Hlen & Hsel & Hv & Hres & Htrack).
  apply select_variation_index_ok_world in Hsel as (_ & _ & Hw1).
  match type of Htrack with
  | annotate_and_track _ _ ?u ?x ?cv ?its ?tr ?ts ?wb = _ =>
      pose proof (annotate_and_track_fields E self u x cv its tr ts wb) as Hf;
      pose proof (annotate_and_track_ticks u x cv its tr ts wb) as Ht
  end.
  cbv zeta in Hf. rewrite Htrack in Hf, Ht. simpl in Hf, Ht.
  destruct Hf as (_ & _ & Hrng & _).
  rewrite Hrng, Ht, Hw1. simpl. split; [reflexivity|].
  destruct tracker, timestamp; reflexivity.
Qed.

End RequestFacts.

Section RequestProperties.

Context (E : Env) (self : Identity).
Context (current_item_id : option string) (item_list : option (list string))
        (num_results : Z) (filter_values context promotion : option value).

Local Abbreviation request user_id tracker timestamp :=
  (get_items E self user_id current_item_id item_list num_results tracker
             filter_values context timestamp promotion).

Local Abbreviation params uid :=
  (resolve_params_of uid current_item_id item_list num_results filter_values
                     context promotion).

(** X9. Whatever the resolver returns, also with the same dictionary at
    several positions, each returned object carries the stamp of the last
    position it occupies in the sequence: rank [k + 1] and the correlation
    id computed for that rank, when [k] is that position. *)
Theorem get_items_stamp_of_last_position (user_id : option string)
    (tracker : option Tracker) (timestamp : option datetime) (w w' : World)
    (items : list nat) :
  request user_id tracker timestamp w = (Ok items, w') ->
  exists (uid : string) (i : nat),
    user_id = Some uid /\
    (_select_variation_index E self w).1 = Ok (Z.of_nat i) /\
    forall (k : nat) (l : nat),
      last_position items k l ->
      stamp_of (heap w') l =
        Some {| stamp_id := self_id self;
                stamp_feature := self_feature self;
                stamp_name := self_name self;
                stamp_type := self_type self;
                variationIndex := Z.of_nat i;
                resultRank := Z.of_nat k + 1;
                correlationId :=
                  _create_correlation_id E self uid (Z.of_nat i)
                                         (Z.of_nat k + 1) |}.
Proof.
  intros Hrun.
  apply get_items_ok_fields in Hrun
    as (uid & i & v & h & -> & _ & _ & Hsel & _ & _ & _ & Hheap & _).
  exists uid, i. split; [reflexivity|]. split; [exact Hsel|].
  intros k l Hlast. rewrite Hheap.
  rewrite (annotate_last_position E self uid (Z.of_nat i) items 1 h k l Hlast).
  unfold stamp_at. f_equal. f_equal; [lia | f_equal; lia].
Qed.

(** X10. Every object of a returned sequence of [n] items carries a stamp
    of this very request: the experiment's identity, the chosen variation
    index, a rank between 1 and [n], and the correlation id computed for
    that rank. *)
Theorem get_items_every_item_stamped (user_id : option string)
    (tracker : option Tracker) (timestamp : option datetime) (w w' : World)
    (items : list nat) :
  request user_id tracker timestamp w = (Ok items, w') ->
  exists (uid : string) (i : nat),
    user_id = Some uid /\
    (_select_variation_index E self w).1 = Ok (Z.of_nat i) /\
    forall l : nat,
      l ∈ items ->
      exists st,
        stamp_of (heap w') l = Some st /\
        stamp_id st = self_id self /\ stamp_feature st = self_feature self /\
        stamp_name st = self_name self /\ stamp_type st = self_type self /\
        variationIndex st = Z.of_nat i /\
        1 <= resultRank st <= Z.of_nat (length items) /\
        correlationId st =
          _create_correlation_id E self uid (Z.of_nat i) (resultRank st).
Proof.
  intros Hrun.
  apply get_items_ok_fields in Hrun
    as (uid & i & v & h & -> & _ & _ & Hsel & _ & _ & _ & Hheap & _).
  exists uid, i. split; [reflexivity|]. split; [exact Hsel|].
  intros l Hl. destruct (last_position_exists items l Hl) as [k Hlast].
  pose proof (last_position_lt items k l Hlast) as Hk.
  eexists. rewrite Hheap.
  rewrite (annotate_last_position E self uid (Z.of_nat i) items 1 h k l Hlast).
  split; [reflexivity|]. simpl. repeat split; lia.
Qed.

(** X11. Once the selection has returned in a validated request, the
    resolver of the chosen variation is called exactly once, whatever it
    does and whether or not a tracker is supplied, with the request's
    arguments forwarded as they came ([current_item_id] as [product_id],
    [item_list] as [product_list]); no other resolver is called.  When that
    call raises, no item is annotated: the heap is as the resolver left
    it. *)
Theorem get_items_calls_chosen_resolver_once (uid : string)
    (tracker : option Tracker) (timestamp : option datetime)
    (w w1 : World) (idx : Z) :
  uid <> "" ->
  (2 <= length (variations w))%nat ->
  _select_variation_index E self w = (Ok idx, w1) ->
  resolver_calls (request (Some uid) tracker timestamp w).2 =
    resolver_calls w ++
      [(idx, {| rp_user_id := uid;
                rp_product_id := current_item_id;
                rp_product_list := item_list;
                rp_num_results := num_results;
                rp_filter_values := filter_values;
                rp_context := context;
                rp_promotion := promotion |})] /\
  forall (v : Variation) (e : exn) (h : gmap nat (gmap string value)),
    variations w !! Z.to_nat idx = Some v ->
    resolver v (params uid) (heap w) = (Raise e, h) ->
    heap (request (Some uid) tracker timestamp w).2 = h.
Proof.
  intros Huid Hlen Hsel.
  destruct (get_items_chosen E self uid current_item_id item_list num_results
              tracker filter_values context timestamp promotion w w1 idx
              Huid Hlen Hsel) as (i & v & -> & Hv & Hnf).
  cbv zeta in Hnf. rewrite Hnf. rewrite Nat2Z.id. split.
  - destruct (resolver v _ (heap w)) as [[items|e] h]; [|reflexivity].
    match goal with
    | |- context [annotate_and_track _ _ ?u ?x ?cv ?its ?tr ?ts ?wb] =>
        pose proof (annotate_and_track_fields E self u x cv its tr ts wb) as Hf
    end.
    cbv zeta in Hf. destruct Hf as (_ & _ & _ & _ & _ & Hrc & _).
    rewrite Hrc. reflexivity.
  - intros v' e h Hv' Hres. rewrite Hv in Hv'. injection Hv' as <-.
    rewrite Hres. reflexivity.
Qed.

(** X12. When the resolver finds nothing, [get_items] returns the empty
    sequence and changes no dictionary, but the request still counts: the
    resolver has been called and, with a tracker, one exposure event for the
    chosen variation is emitted. *)
Theorem get_items_empty_result (user_id : option string)
    (tracker : option Tracker) (timestamp : option datetime) (w w' : World) :
  request user_id tracker timestamp w = (Ok [], w') ->
  exists (uid : string) (i : nat) (v : Variation),
    user_id = Some uid /\
    (_select_variation_index E self w).1 = Ok (Z.of_nat i) /\
    variations w !! i = Some v /\
    resolver v (params uid) (heap w) = (Ok [], heap w') /\
    resolver_calls w' = resolver_calls w ++ [(Z.of_nat i, params uid)] /\
    (tracker <> None ->
     exists event,
       tracker_calls w' = tracker_calls w ++ [event] /\
       attr_variation_index (attributes event) = Z.of_nat i).
Proof.
  intros Hrun.
  apply get_items_ok_fields in Hrun
    as (uid & i & v & h & -> & _ & _ & Hsel & Hv & Hres & _ & Hheap & Htc
        & Hrc & _).
  simpl in Hheap. subst h.
  exists uid, i, v. split; [reflexivity|]. split; [exact Hsel|].
  split; [exact Hv|]. split; [exact Hres|]. split; [exact Hrc|].
  intros Htr. destruct tracker as [tr|]; [|congruence].
  eexists. split; [exact Htc | reflexivity].
Qed.


(** X14. A request that returns items reads the clock once, for the
    snapshot's timestamp, and a second time only when a tracker is supplied
    without a timestamp. *)
Theorem get_items_clock_reads (user_id : option string)
    (tracker : option Tracker) (timestamp : option datetime) (w w' : World)
    (items : list nat) :
  request user_id tracker timestamp w = (Ok items, w') ->
  ticks w' = match tracker, timestamp with
             | Some _, None => S (S (ticks w))
             | _, _ => S (ticks w)
             end.
Proof.
  intros Hrun. eapply get_items_ok_rng_ticks. exact Hrun.
Qed.

End RequestProperties.

(** ** The event's timestamp *)

Lemma py_round_nearest (q : Q) :
  (q - (1 # 2) <= inject_Z (py_round q) <= q + (1 # 2))%Q.
Proof.
  unfold py_round.
  pose proof (Qfloor_le q) as Hlo. pose proof (Qlt_floor q) as Hhi.
  rewrite inject_Z_plus in Hhi. change (inject_Z 1) with 1%Q in Hhi.
  destruct (Qcompare_spec (q - inject_Z (Qfloor q)) (1 # 2)) as [Heq|Hlt|Hgt].
  - destruct (Z.even (Qfloor q)).
    + split; lra.
    + rewrite inject_Z_plus. change (inject_Z 1) with 1%Q. split; lra.
  - split; lra.
  - rewrite inject_Z_plus. change (inject_Z 1) with 1%Q. split; lra.
Qed.

Lemma py_round_tie_even (q : Q) :
  (q - inject_Z (Qfloor q) == 1 # 2)%Q -> Z.even (py_round q) = true.
Proof.
  intros Heq. unfold py_round.
  destruct (Qcompare_spec (q - inject_Z (Qfloor q)) (1 # 2)) as [_|Hlt|Hgt].
  - destruct (Z.even (Qfloor q)) eqn:Hev; [exact Hev|].
    rewrite Z.add_1_r, Z.even_succ, <- Z.negb_even, Hev. reflexivity.
  - rewrite Heq in Hlt. exfalso. apply (Qlt_irrefl _ Hlt).
  - rewrite Heq in Hgt. exfalso. apply (Qlt_irrefl _ Hgt).
Qed.

Lemma py_round_integer (q : Q) (z : Z) :
  (q == inject_Z z)%Q -> py_round q = z.
Proof.
  intros Heq. pose proof (py_round_nearest q) as [Hlo Hhi].
  destruct (Z.lt_trichotomy (py_round q) z) as [Hlt|[Hz|Hgt]]; [|exact Hz|].
  - exfalso. assert (H : (py_round q + 1 <= z)%Z) by lia.
    rewrite Zle_Qle, inject_Z_plus in H.
    change (inject_Z 1) with 1%Q in H. lra.
  - exfalso. assert (H : (z + 1 <= py_round q)%Z) by lia.
    rewrite Zle_Qle, inject_Z_plus in H.
    change (inject_Z 1) with 1%Q in H. lra.
Qed.

(** X15. The event's timestamp is the integer nearest to the float
    product [timestamp.timestamp() * 1000]: it is within half a millisecond
    of it, a product that falls halfway between two integers goes to the
    even one, and a product that is a whole number of milliseconds is kept
    as it is. *)
Theorem epoch_millis_nearest (E : Env) (t : datetime) :
  let x := float_mul E (posix_timestamp t) (inject_Z 1000) in
  (x - (1 # 2) <= inject_Z (epoch_millis E t) <= x + (1 # 2))%Q /\
  ((x - inject_Z (Qfloor x) == 1 # 2)%Q -> Z.even (epoch_millis E t) = true) /\
  (forall z : Z, (x == inject_Z z)%Q -> epoch_millis E t = z).
Proof.
  cbv zeta. unfold epoch_millis.
  split; [apply py_round_nearest|]. split; [apply py_round_tie_even|].
  intros z. apply py_round_integer.
Qed.

(** *** The further properties on concrete requests *)

Lemma select_variation_index_fails_clean_witness :
  (_select_variation_index Demo.env Demo.self Cases.world_none_exposures).2 =
    Cases.world_none_exposures.
Proof.
  apply (select_variation_index_fails_clean Demo.env Demo.self
           Cases.world_none_exposures
           (TypeError "int() argument must be a string, a bytes-like object or a real number, not 'NoneType'")).
  - discriminate.
  - vm_compute. reflexivity.
Defined.

Lemma get_items_selection_failure_propagates_witness :
  Demo.call Demo.env (Some "u1") (Some Demo.quiet_tracker) None
            Cases.world_negative_conversions =
    (Raise (ValueError "a <= 0"), Cases.world_negative_conversions).
Proof.
  apply (get_items_selection_failure_propagates Demo.env Demo.self "u1").
  - discriminate.
  - simpl. lia.
  - vm_compute. reflexivity.
Defined.

Lemma select_variation_index_rejects_negative_counts_witness :
  _select_variation_index Demo.env Demo.self Cases.world_negative_conversions =
    (Raise (ValueError "a <= 0"), Cases.world_negative_conversions) /\
  _select_variation_index Demo.env Demo.self Cases.world_negative_exposures =
    (Raise (ValueError "b <= 0"), Cases.world_negative_exposures).
Proof.
  split.
  - apply (select_variation_index_rejects_negative_counts Demo.env Demo.self
             Cases.world_negative_conversions).
    + vm_compute. reflexivity.
    + exists {| config := Demo.counts 10 (-3); resolver := Demo.xyz |}.
      split; [|vm_compute; reflexivity].
      apply list_elem_of_lookup. exists 1%nat. reflexivity.
  - apply (select_variation_index_rejects_negative_counts Demo.env Demo.self
             Cases.world_negative_exposures).
    + vm_compute. reflexivity.
    + intros v Hv. apply list_elem_of_lookup in Hv as [k Hk].
      destruct k as [|[|k]]; simpl in Hk; [| |discriminate];
        injection Hk as <-; vm_compute; discriminate.
    + exists {| config := Demo.counts (-1) 0; resolver := Demo.xyz |}.
      split; [|vm_compute; reflexivity].
      apply list_elem_of_lookup. exists 0%nat. reflexivity.
Defined.

Lemma select_variation_index_unreadable_count_witness :
  _select_variation_index Demo.env Demo.self Cases.world_huge_then_none =
    (Raise (OverflowError "int too large to convert to float"),
     Cases.world_huge_then_none).
Proof.
  destruct (select_variation_index_unreadable_count Demo.env Demo.self
              Cases.world_huge_then_none)
    as (e & i & v & Hrun & Hi & Hbefore & Hfail).
  - vm_compute. reflexivity.
  - destruct i as [|i].
    + injection Hi as <-. rewrite Hrun. f_equal.
      destruct Hfail as [Hex|[[x Hex] _]].
      * assert (Hc : read_count Demo.env (Demo.counts (10 ^ 400) 9) "exposures"
                     = Raise (OverflowError "int too large to convert to float"))
          by (vm_compute; reflexivity).
        simpl in Hex. congruence.
      * assert (Hc : read_count Demo.env (Demo.counts (10 ^ 400) 9) "exposures"
                     = Raise (OverflowError "int too large to convert to float"))
          by (vm_compute; reflexivity).
        simpl in Hex. congruence.
    + exfalso. destruct (Hbefore 0%nat _ ltac:(lia) eq_refl) as (x & y & Hx & _).
      assert (Hc : read_count Demo.env (Demo.counts (10 ^ 400) 9) "exposures"
                   = Raise (OverflowError "int too large to convert to float"))
        by (vm_compute; reflexivity).
      simpl in Hx. congruence.
Defined.

Lemma select_variation_index_empty_experiment_witness :
  (_select_variation_index Demo.env Demo.self (Demo.world_of [])).1 =
    Raise (ValueError "attempt to get argmax of an empty sequence") /\
  length (put_attempts
            (_select_variation_index Demo.env Demo.self (Demo.world_of [])).2) =
    1%nat.
Proof.
  destruct (select_variation_index_empty_experiment Demo.env Demo.self
              (Demo.world_of []) eq_refl) as (Hres & Hput & _).
  split; [exact Hres|]. rewrite Hput. reflexivity.
Defined.

Lemma select_variation_index_snapshot_witness :
  map snap_exposures
      (put_attempts
         (_select_variation_index Demo.env Demo.self
            Cases.world_past_53_bits).2) = [[2 ^ 53; 10]].
Proof.
  destruct (select_variation_index_snapshot Demo.env Demo.self
              Cases.world_past_53_bits
              (_select_variation_index Demo.env Demo.self
                 Cases.world_past_53_bits).2 1)
    as (exposures & conversions & Hput & Hl1 & _ & _ & Hall & _).
  - apply (run_eq (_select_variation_index Demo.env Demo.self
                     Cases.world_past_53_bits)).
    vm_compute. reflexivity.
  - rewrite Hput. simpl. f_equal.
    destruct (Hall 0%nat _ eq_refl) as (x & y & Hx & _ & _ & _ & Hrx & _).
    destruct (Hall 1%nat _ eq_refl) as (x' & y' & Hx' & _ & _ & _ & Hrx' & _).
    destruct exposures as [|a [|b [|c l]]]; simpl in Hl1; try discriminate.
    simpl in Hx, Hx'. injection Hx as ->. injection Hx' as ->.
    rewrite (Hrx (2 ^ 53 + 1)) by reflexivity.
    rewrite (Hrx' 10) by reflexivity.
    vm_compute. reflexivity.
Defined.

Lemma select_variation_index_log_outcome_witness :
  app_log (_select_variation_index
             (with_put_item Cases.store_throttled Demo.env) Demo.self
             (Demo.world_ab Demo.xyz Demo.xyz)).2 =
    [ErrorFailedToLog
       (PyExn "ProvisionedThroughputExceededException" "rate exceeded")].
Proof.
  destruct (select_variation_index_log_outcome
              (with_put_item Cases.store_throttled Demo.env) Demo.self
              (Demo.world_ab Demo.xyz Demo.xyz)
              (_select_variation_index
                 (with_put_item Cases.store_throttled Demo.env) Demo.self
                 (Demo.world_ab Demo.xyz Demo.xyz)).2 0)
    as (Hout & _).
  - apply (run_eq (_select_variation_index
                     (with_put_item Cases.store_throttled Demo.env) Demo.self
                     (Demo.world_ab Demo.xyz Demo.xyz))).
    vm_compute. reflexivity.
  - cbn [put_item with_put_item Cases.store_throttled] in Hout.
    destruct Hout as [_ Hlog]. rewrite Hlog. reflexivity.
Defined.

Lemma select_variation_index_reads_counts_only_witness :
  (_select_variation_index Demo.env Demo.self
     (Demo.world_ab Demo.xyz Demo.xyz)).1 =
    (_select_variation_index Demo.env Demo.self Cases.world_ab_noisy).1.
Proof.
  apply (select_variation_index_reads_counts_only Demo.env Demo.self
           (Demo.world_ab Demo.xyz Demo.xyz) Cases.world_ab_noisy);
    vm_compute; reflexivity.
Defined.

Lemma get_items_stamp_of_last_position_witness :
  resultRank <$>
    stamp_of (heap (Demo.call Demo.env (Some "u1") None None
                      (Demo.world_ab Cases.x_y_x Cases.x_y_x)).2) 0%nat =
    Some 3.
Proof.
  destruct (get_items_stamp_of_last_position Demo.env Demo.self
              None None 3 None None None (Some "u1") None None
              (Demo.world_ab Cases.x_y_x Cases.x_y_x)
              (Demo.call Demo.env (Some "u1") None None
                 (Demo.world_ab Cases.x_y_x Cases.x_y_x)).2
              [0%nat; 1%nat; 0%nat])
    as (uid & i & _ & _ & Hstamp).
  - apply (run_eq (Demo.call Demo.env (Some "u1") None None
                     (Demo.world_ab Cases.x_y_x Cases.x_y_x))).
    vm_compute. reflexivity.
  - rewrite (Hstamp 2%nat 0%nat); [reflexivity|].
    split; [reflexivity|].
    intros [|[|[|j]]] Hj; try lia. discriminate.
Defined.

Lemma get_items_every_item_stamped_witness :
  exists st,
    stamp_of (heap (Demo.call Demo.env (Some "u1") None None
                      (Demo.world_ab Cases.x_y_x Cases.x_y_x)).2) 1%nat =
      Some st /\
    1 <= resultRank st <= 3.
Proof.
  destruct (get_items_every_item_stamped Demo.env Demo.self
              None None 3 None None None (Some "u1") None None
              (Demo.world_ab Cases.x_y_x Cases.x_y_x)
              (Demo.call Demo.env (Some "u1") None None
                 (Demo.world_ab Cases.x_y_x Cases.x_y_x)).2
              [0%nat; 1%nat; 0%nat])
    as (uid & i & _ & _ & Hall).
  - apply (run_eq (Demo.call Demo.env (Some "u1") None None
                     (Demo.world_ab Cases.x_y_x Cases.x_y_x))).
    vm_compute. reflexivity.
  - destruct (Hall 1%nat) as (st & Hst & _ & _ & _ & _ & _ & Hrank & _).
    + apply list_elem_of_lookup. exists 1%nat. reflexivity.
    + exists st. split; [exact Hst | exact Hrank].
Defined.

Lemma get_items_calls_chosen_resolver_once_witness :
  map fst
      (resolver_calls
         (Demo.call Demo.env (Some "u1") None None
            (Demo.world_ab
               (Demo.raising_resolver (PyExn "TimeoutError" "resolver"))
               Demo.xyz)).2) = [0].
Proof.
  destruct (get_items_calls_chosen_resolver_once Demo.env Demo.self
              None None 3 None None None "u1" None None
              (Demo.world_ab
                 (Demo.raising_resolver (PyExn "TimeoutError" "resolver"))
                 Demo.xyz)
              (_select_variation_index Demo.env Demo.self
                 (Demo.world_ab
                    (Demo.raising_resolver (PyExn "TimeoutError" "resolver"))
                    Demo.xyz)).2
              0)
    as (Hcalls & _).
  - discriminate.
  - simpl. lia.
  - apply (run_eq (_select_variation_index Demo.env Demo.self
                     (Demo.world_ab
                        (Demo.raising_resolver
                           (PyExn "TimeoutError" "resolver"))
                        Demo.xyz))).
    vm_compute. reflexivity.
  - unfold Demo.call. rewrite Hcalls. reflexivity.
Defined.

Lemma get_items_empty_result_witness :
  length (tracker_calls
            (Demo.call Demo.env (Some "u1") (Some Demo.quiet_tracker) None
               (Demo.world_ab Cases.nothing Cases.nothing)).2) = 1%nat.
Proof.
  destruct (get_items_empty_result Demo.env Demo.self
              None None 3 None None None (Some "u1")
              (Some Demo.quiet_tracker) None
              (Demo.world_ab Cases.nothing Cases.nothing)
              (Demo.call Demo.env (Some "u1") (Some Demo.quiet_tracker) None
                 (Demo.world_ab Cases.nothing Cases.nothing)).2)
    as (uid & i & v & _ & _ & _ & _ & _ & Hevent).
  - apply (run_eq (Demo.call Demo.env (Some "u1") (Some Demo.quiet_tracker)
                     None (Demo.world_ab Cases.nothing Cases.nothing))).
    vm_compute. reflexivity.
  - destruct Hevent as (event & Hcalls & _); [discriminate|].
    rewrite Hcalls. reflexivity.
Defined.


Lemma get_items_clock_reads_witness :
  ticks (Demo.call Demo.env (Some "u1") (Some Demo.quiet_tracker)
           (Some (Demo.clock 40))
           (Demo.world_ab Demo.xyz Demo.xyz)).2 = 1%nat.
Proof.
  apply (get_items_clock_reads Demo.env Demo.self
           None None 3 None None None (Some "u1") (Some Demo.quiet_tracker)
           (Some (Demo.clock 40)) (Demo.world_ab Demo.xyz Demo.xyz)
           (Demo.call Demo.env (Some "u1") (Some Demo.quiet_tracker)
              (Some (Demo.clock 40)) (Demo.world_ab Demo.xyz Demo.xyz)).2
           [0%nat; 1%nat; 2%nat]).
  apply (run_eq (Demo.call Demo.env (Some "u1") (Some Demo.quiet_tracker)
                   (Some (Demo.clock 40)) (Demo.world_ab Demo.xyz Demo.xyz))).
  vm_compute. reflexivity.
Defined.

Lemma epoch_millis_nearest_witness :
  epoch_millis Demo.env (Demo.clock 40) = 1700000040000.
Proof.
  destruct (epoch_millis_nearest Demo.env (Demo.clock 40)) as (_ & _ & Hint).
  apply Hint. vm_compute. reflexivity.
Defined.
